(** * Encrypted data logging with the key in OPTIGA: a model of main.c

    The development follows [src/main/main.c]: the synchronous facade over
    the asynchronous secure-element driver ([optiga_callback],
    [optiga_wait], [optiga_rng_fill]), the key provisioning step
    ([optiga_key_ready], [optiga_write_e200_metadata],
    [optiga_generate_key_if_enabled]), the record codec ([encrypt_record])
    and the log store ([append_encrypted_record], [print_log_file_hex]).

    Bytes are integers in [0, 256); C integers are [Z] with their
    wrap-around written out; the globals of main.c, the secure element, the
    log file and the ESP log output are the fields of one [world] record
    that every function threads through a small state monad. *)

From Stdlib Require Import Ascii String ZArith List Bool Lia.
From Equations Require Import Equations.
Import ListNotations.
Open Scope Z_scope.

(** ** Configuration constants of main.c *)

Definition AES_IV_BYTES : Z := 16.
Definition PLAINTEXT_MAX : Z := 64.

(** [const uint16_t oid = 0xE200], the key slot used throughout. *)
Definition OID_E200 : Z := 0xE200.

(** The record format: IV (16B) + ciphertext (64B) = 80B. *)
Definition RECORD_BYTES : nat := Z.to_nat (AES_IV_BYTES + PLAINTEXT_MAX).

(** Size of the read buffer of [print_log_file_hex]: [uint8_t buf[32]]. *)
Definition HEX_CHUNK : nat := 32.

(** The metadata written by [optiga_write_e200_metadata]. *)
Definition e200_metadata : list Z :=
  [0x20; 0x06; 0xD0; 0x01; 0x00; 0xD3; 0x01; 0x00].

(** ** Status codes of the secure-element driver

    [optiga_lib_status_t] is a 16-bit code of the vendor library. main.c
    compares it with two of its values only, [OPTIGA_LIB_SUCCESS] and
    [OPTIGA_LIB_BUSY]; every other code is a failure. *)

Inductive optiga_lib_status_t : Type :=
| OPTIGA_LIB_SUCCESS
| OPTIGA_LIB_BUSY
| OPTIGA_LIB_ERROR (code : Z).

Definition is_success (s : optiga_lib_status_t) : bool :=
  match s with OPTIGA_LIB_SUCCESS => true | _ => false end.

Definition is_busy (s : optiga_lib_status_t) : bool :=
  match s with OPTIGA_LIB_BUSY => true | _ => false end.

(** The four states the specification gives a crypto operation, and the
    state each driver code stands for. No code of the driver stands for
    [Idle]. *)

Inductive crypto_op_state : Type := Idle | Busy | Success | Error.

Definition op_state (s : optiga_lib_status_t) : crypto_op_state :=
  match s with
  | OPTIGA_LIB_SUCCESS => Success
  | OPTIGA_LIB_BUSY => Busy
  | OPTIGA_LIB_ERROR _ => Error
  end.

(** ** The secure element as an external collaborator

    One constructor per driver entry point main.c calls, with the
    arguments that vary; the constant ones are noted beside each. *)

Inductive se_request : Type :=
| optiga_crypt_random (len : Z)
    (* OPTIGA_RNG_TYPE_TRNG *)
| optiga_util_read_metadata (oid : Z) (capacity : Z)
| optiga_util_write_metadata (oid : Z) (blob : list Z)
| optiga_crypt_symmetric_generate_key
    (* OPTIGA_SYMMETRIC_AES_128, OPTIGA_KEY_USAGE_ENCRYPTION, FALSE,
       OPTIGA_KEY_ID_SECRET_BASED *)
| optiga_crypt_symmetric_encrypt (plain : list Z) (iv : list Z)
    (* OPTIGA_SYMMETRIC_CBC, OPTIGA_KEY_ID_SECRET_BASED, no associated data *).

(** What the element answers to one request: the code the driver call
    returns at once; when and with which status the completion callback
    fires ([Some (n, st)]: after [n] polls of 5 ms, [None]: never); and the
    bytes it leaves in the caller's output buffer, whose number is the
    length it reports. *)

Record se_response : Type := mkResp {
  resp_ret : optiga_lib_status_t;
  resp_done : option (nat * optiga_lib_status_t);
  resp_out : list Z
}.

(** ** ESP log output *)

Inductive esp_log_level : Type := ESP_LOG_ERROR | ESP_LOG_WARN | ESP_LOG_INFO.

(** A line of [ESP_LOGx] with its format string (arguments dropped), or a
    buffer rendered by [ESP_LOG_BUFFER_HEX_LEVEL]. *)
Inductive log_line : Type :=
| LogLine (lvl : esp_log_level) (fmt : string)
| LogHex (lvl : esp_log_level) (data : list Z).

Definition line_level (l : log_line) : esp_log_level :=
  match l with LogLine lvl _ => lvl | LogHex lvl _ => lvl end.

Definition is_error_line (l : log_line) : bool :=
  match line_level l with ESP_LOG_ERROR => true | _ => false end.

Definition is_info_line (l : log_line) : bool :=
  match line_level l with ESP_LOG_INFO => true | _ => false end.

(** ** The platform below main.c

    What the C library and the file system decide on their own: the value
    of [esp_timer_get_time], whether [snprintf] reports an output error,
    whether [fopen] on the log file succeeds, and how many more bytes the
    storage accepts. *)

Record platform : Type := mkPlatform {
  uptime_us : Z;
  snprintf_ok : bool;
  fopen_ok : bool;
  fs_free : nat
}.

(** ** Results of a run

    [Undefined]: the run reached an access outside a buffer, for which C
    defines no behaviour. [Timeout]: the run was followed for the given
    number of polls and [optiga_wait] was still looping. *)

Inductive result (St A : Type) : Type :=
| Done (a : A) (s : St)
| Undefined
| Timeout.
Arguments Done {St A} a s.
Arguments Undefined {St A}.
Arguments Timeout {St A}.

(** ** The state *)

Record world (dev : Type) : Type := mkWorld {
  s_log_seq : Z;                                     (* uint32_t *)
  s_optiga_status : optiga_lib_status_t;             (* volatile *)
  se_state : dev;
  se_pending : option (nat * optiga_lib_status_t);   (* callback to come *)
  se_trace : list (se_request * se_response);        (* requests so far *)
  plat : platform;
  log_file : option (list Z);                        (* None: no file *)
  esp_log : list log_line
}.
Arguments mkWorld {dev}.
Arguments s_log_seq {dev}.
Arguments s_optiga_status {dev}.
Arguments se_state {dev}.
Arguments se_pending {dev}.
Arguments se_trace {dev}.
Arguments plat {dev}.
Arguments log_file {dev}.
Arguments esp_log {dev}.

Definition set_log_seq {dev} (v : Z) (w : world dev) : world dev :=
  mkWorld v (s_optiga_status w) (se_state w) (se_pending w) (se_trace w)
          (plat w) (log_file w) (esp_log w).

Definition set_optiga_status {dev} (v : optiga_lib_status_t) (w : world dev) : world dev :=
  mkWorld (s_log_seq w) v (se_state w) (se_pending w) (se_trace w)
          (plat w) (log_file w) (esp_log w).

Definition set_se_pending {dev} (v : option (nat * optiga_lib_status_t))
           (w : world dev) : world dev :=
  mkWorld (s_log_seq w) (s_optiga_status w) (se_state w) v (se_trace w)
          (plat w) (log_file w) (esp_log w).

Definition set_se {dev} (d : dev) (tr : list (se_request * se_response))
           (w : world dev) : world dev :=
  mkWorld (s_log_seq w) (s_optiga_status w) d (se_pending w) tr
          (plat w) (log_file w) (esp_log w).

Definition set_storage {dev} (p : platform) (f : option (list Z))
           (w : world dev) : world dev :=
  mkWorld (s_log_seq w) (s_optiga_status w) (se_state w) (se_pending w)
          (se_trace w) p f (esp_log w).

Definition push_log {dev} (l : log_line) (w : world dev) : world dev :=
  mkWorld (s_log_seq w) (s_optiga_status w) (se_state w) (se_pending w)
          (se_trace w) (plat w) (log_file w) (esp_log w ++ [l]).

(** ** Integer types and text formatting *)

(** [uint32_t] arithmetic wraps modulo 2^32. *)
Definition wrap32 (v : Z) : Z := v mod 2 ^ 32.

Definition INT64_MIN : Z := - 2 ^ 63.
Definition INT64_MAX : Z := 2 ^ 63 - 1.

Definition bytes_of_string (s : string) : list Z :=
  map (fun c => Z.of_nat (Ascii.nat_of_ascii c)) (list_ascii_of_string s).

(** The decimal digits of [v >= 0], most significant first, produced from
    the least significant one; [n] bounds the number of digits. *)
Fixpoint dec_digits (n : nat) (v : Z) (acc : list Z) : list Z :=
  match n with
  | O => acc
  | S n' =>
      let acc' := (48 + v mod 10) :: acc in
      if v / 10 =? 0 then acc' else dec_digits n' (v / 10) acc'
  end.

(** The conversions [%lu] and [%lld] of printf. *)
Definition fmt_lu (v : Z) : list Z :=
  dec_digits (S (Z.to_nat (Z.log2 v))) v [].

Definition fmt_lld (v : Z) : list Z :=
  if v <? 0 then 45 :: fmt_lu (- v) else fmt_lu v.

(** The text of the format of [append_encrypted_record],
    an opening brace, the quoted names [seq] and [uptime_ms] each followed
    by a colon and its number, separated by a comma, and a closing brace;
    34 is the double quote. *)
Definition format_msg (seq uptime_ms : Z) : list Z :=
  bytes_of_string "{" ++ [34] ++ bytes_of_string "seq" ++ [34]
    ++ bytes_of_string ":" ++ fmt_lu seq
    ++ bytes_of_string "," ++ [34] ++ bytes_of_string "uptime_ms" ++ [34]
    ++ bytes_of_string ":" ++ fmt_lld uptime_ms
    ++ bytes_of_string "}".

(** ** Requests in a trace *)

Definition is_write_metadata (e : se_request * se_response) : bool :=
  match fst e with optiga_util_write_metadata _ _ => true | _ => false end.

Definition is_generate_key (e : se_request * se_response) : bool :=
  match fst e with optiga_crypt_symmetric_generate_key => true | _ => false end.

Definition count_write_metadata (tr : list (se_request * se_response)) : nat :=
  length (filter is_write_metadata tr).

Definition count_generate_key (tr : list (se_request * se_response)) : nat :=
  length (filter is_generate_key tr).

(** An answer that makes a driver call succeed: the request is accepted
    and its completion callback carries success. *)
Definition completes_ok (r : se_response) : bool :=
  is_success (resp_ret r)
  && match resp_done r with Some (_, st) => is_success st | None => false end.

(** An answer to a metadata read that makes [optiga_key_ready] accept the
    slot: the read succeeds and the blob is not empty. *)
Definition metadata_present (r : se_response) : bool :=
  completes_ok r && negb (Z.of_nat (length (resp_out r)) =? 0).

(** ** Start-up and the command feed

    [esp_err_t] is compared with [ESP_OK] only. What start-up finds
    outside main.c: the result of mounting the storage and whether the two
    driver instances could be created. *)

Inductive esp_err_t : Type := ESP_OK | ESP_ERR (code : Z).

Definition is_esp_ok (e : esp_err_t) : bool :=
  match e with ESP_OK => true | ESP_ERR _ => false end.

Record boot_env : Type := mkBoot {
  mount_result : esp_err_t;
  crypt_created : bool;       (* optiga_crypt_create returned an instance *)
  util_created : bool         (* optiga_util_create returned an instance *)
}.

(** The code of a character constant. *)
Definition chr (c : Ascii.ascii) : Z := Z.of_nat (Ascii.nat_of_ascii c).

(** The keys that append and the keys that clear. *)
Definition is_append_key (ch : Z) : bool :=
  (ch =? chr "a"%char) || (ch =? chr "A"%char) || (ch =? chr "1"%char).

Definition is_clear_key (ch : Z) : bool :=
  (ch =? chr "c"%char) || (ch =? chr "C"%char) || (ch =? chr "2"%char).

(** ** Stub secure elements

    A stub keeps the metadata of slot 0xE200, completes every accepted
    request after [stub_delay] polls, returns the bytes 0, 1, 2, ... as
    random numbers and every plaintext byte xor 0xFF as ciphertext. It can
    be told to refuse metadata writes and to fail random generation. *)

Record stub_dev : Type := mkStub {
  stub_meta : list Z;
  stub_write_ok : bool;
  stub_rng_ok : bool
}.

Definition stub_delay : nat := 2.

Definition stub_exec (d : stub_dev) (req : se_request) : se_response * stub_dev :=
  let done := Some (stub_delay, OPTIGA_LIB_SUCCESS) in
  match req with
  | optiga_crypt_random len =>
      (mkResp OPTIGA_LIB_SUCCESS
              (Some (stub_delay,
                     if stub_rng_ok d then OPTIGA_LIB_SUCCESS
                     else OPTIGA_LIB_ERROR 0x0202))
              (map Z.of_nat (seq 0 (Z.to_nat len))), d)
  | optiga_util_read_metadata _ _ =>
      (mkResp OPTIGA_LIB_SUCCESS done (stub_meta d), d)
  | optiga_util_write_metadata _ blob =>
      if stub_write_ok d
      then (mkResp OPTIGA_LIB_SUCCESS done [],
            mkStub blob (stub_write_ok d) (stub_rng_ok d))
      else (mkResp (OPTIGA_LIB_ERROR 0x0107) None [], d)
  | optiga_crypt_symmetric_generate_key =>
      (mkResp OPTIGA_LIB_SUCCESS done [], d)
  | optiga_crypt_symmetric_encrypt plain _ =>
      (mkResp OPTIGA_LIB_SUCCESS done (map (fun b => Z.lxor b 0xFF) plain), d)
  end.

Definition stub_junk (i : nat) : Z := 0xAA.

Definition stub_platform : platform := mkPlatform 532999 true true 4096.

Definition stub_world (d : stub_dev) (p : platform) (f : option (list Z))
  : world stub_dev :=
  mkWorld 0 OPTIGA_LIB_SUCCESS d None [] p f [].

(** A provisioned element, one whose slot has no metadata yet, and one
    that also refuses the metadata write. *)
Definition stub_ready : stub_dev := mkStub e200_metadata true true.
Definition stub_blank : stub_dev := mkStub [] true true.
Definition stub_locked : stub_dev := mkStub [] false true.

(** An element whose random generator fails, a storage with room for
    40 bytes, a storage on which the log file cannot be opened, a log file
    of one record and 20 more bytes, and a state in which a submitted
    request completes with success after one more poll. *)
Definition stub_norng : stub_dev := mkStub e200_metadata true false.
Definition full_platform : platform := mkPlatform 532999 true true 40.
Definition closed_platform : platform := mkPlatform 532999 true false 4096.
Definition torn_file : list Z := map Z.of_nat (seq 0 100).
Definition stub_polls : nat := 10.
Definition stub_waiting : world stub_dev :=
  mkWorld 0 OPTIGA_LIB_BUSY stub_ready (Some (1%nat, OPTIGA_LIB_SUCCESS))
          [] stub_platform None [].

(** An element without state that completes every request with success
    after one poll, with the same random bytes as the stubs above, a fixed
    metadata blob, and a cipher that returns 64 bytes: every plaintext
    byte xor 0xFF, cut or filled up with 0xFF. *)
Definition good_exec (d : unit) (req : se_request) : se_response * unit :=
  let done := Some (1%nat, OPTIGA_LIB_SUCCESS) in
  match req with
  | optiga_crypt_random len =>
      (mkResp OPTIGA_LIB_SUCCESS done (map Z.of_nat (seq 0 (Z.to_nat len))), d)
  | optiga_util_read_metadata _ _ =>
      (mkResp OPTIGA_LIB_SUCCESS done e200_metadata, d)
  | optiga_util_write_metadata _ _ => (mkResp OPTIGA_LIB_SUCCESS done [], d)
  | optiga_crypt_symmetric_generate_key => (mkResp OPTIGA_LIB_SUCCESS done [], d)
  | optiga_crypt_symmetric_encrypt plain _ =>
      (mkResp OPTIGA_LIB_SUCCESS done
              (firstn 64 (map (fun b => Z.lxor b 0xFF) plain ++ repeat 0xFF 64)),
       d)
  end.

Definition good_world (p : platform) (f : option (list Z)) : world unit :=
  mkWorld 0 OPTIGA_LIB_SUCCESS tt None [] p f [].

(** An element that accepts every request and never completes it. *)
Definition wedged_exec (d : unit) (req : se_request) : se_response * unit :=
  (mkResp OPTIGA_LIB_SUCCESS None [], d).

(** A second content for uninitialised arrays, a start-up in which
    everything outside main.c works, and one in which the storage cannot be
    mounted. *)
Definition other_junk (i : nat) : Z := Z.of_nat i mod 256.
Definition boot_fine : boot_env := mkBoot ESP_OK true true.
Definition boot_no_storage : boot_env := mkBoot (ESP_ERR 0x105) true true.

Section Model.

(** The internal state of the secure element and its reaction to a
    request. *)
Variable dev : Type.
Variable se_exec : dev -> se_request -> se_response * dev.

(** The bytes found in a local array before its first write. *)
Variable junk : nat -> Z.

(** How many polls of [optiga_wait] a run is followed for. *)
Variable polls : nat.

(** ** The monad of main.c's functions *)

Definition M (A : Type) : Type := world dev -> result (world dev) A.

Definition ret {A} (a : A) : M A := fun w => Done a w.

Definition bind {A B} (m : M A) (k : A -> M B) : M B :=
  fun w => match m w with
           | Done a w' => k a w'
           | Undefined => Undefined
           | Timeout => Timeout
           end.

Definition gets {A} (f : world dev -> A) : M A := fun w => Done (f w) w.
Definition modify (f : world dev -> world dev) : M unit := fun w => Done tt (f w).
Definition undefined_behaviour {A} : M A := fun _ => Undefined.

Definition ESP_LOGE (fmt : string) : M unit := modify (push_log (LogLine ESP_LOG_ERROR fmt)).
Definition ESP_LOGW (fmt : string) : M unit := modify (push_log (LogLine ESP_LOG_WARN fmt)).
Definition ESP_LOGI (fmt : string) : M unit := modify (push_log (LogLine ESP_LOG_INFO fmt)).

Notation "x <- c1 ;; c2" := (bind c1 (fun x => c2))
  (at level 61, c1 at next level, right associativity).
Notation "' pat <- c1 ;; c2" := (bind c1 (fun x => match x with pat => c2 end))
  (at level 61, pat pattern, c1 at next level, right associativity).
Notation "c1 ;; c2" := (bind c1 (fun _ => c2))
  (at level 61, right associativity).

(** ** Buffers *)

(** A local array of [n] bytes that has not been written yet. *)
Definition uninit (n : Z) : list Z := map junk (seq 0 (Z.to_nat n)).

(** [memset(buf, c, sizeof buf)]. *)
Definition memset (buf : list Z) (c : Z) : list Z := map (fun _ => c) buf.

(** The element filling an output buffer with the bytes of its answer. *)
Definition fill (buf out : list Z) : list Z :=
  firstn (length buf) out ++ skipn (length out) buf.

(** [memcpy(dst + off, src, n)]. Outside either buffer C defines no
    behaviour. *)
Definition memcpy (dst : list Z) (off : Z) (src : list Z) (n : Z) : M (list Z) :=
  if (0 <=? n) && (n <=? Z.of_nat (length src))
     && (0 <=? off) && (off + n <=? Z.of_nat (length dst))
  then ret (firstn (Z.to_nat off) dst ++ firstn (Z.to_nat n) src
              ++ skipn (Z.to_nat (off + n)) dst)
  else undefined_behaviour.

(** ** Crypto engine adapter (main.c lines 100-121) *)

(** [optiga_callback]: the driver's completion notification stores the
    status in the shared variable. *)
Definition optiga_callback (return_status : optiga_lib_status_t)
           (w : world dev) : world dev :=
  set_optiga_status return_status w.

(** [pal_os_timer_delay_in_milliseconds]: time passes, and the completion
    callback fires when it is due. [se_pending w = Some (n, st)]: the
    callback fires with [st] during the delay after the next [n]. *)
Definition pal_os_timer_delay_in_milliseconds (milliseconds : Z)
           (w : world dev) : world dev :=
  match se_pending w with
  | Some (O, st) => optiga_callback st (set_se_pending None w)
  | Some (S n, st) => set_se_pending (Some (n, st)) w
  | None => w
  end.

(** A driver call: the element takes the request and the call returns its
    code at once. Only an accepted request is completed by a callback,
    which fires before the call returns when the answer says after 0
    polls. *)
Definition se_submit (req : se_request) : M (optiga_lib_status_t * list Z) :=
  fun w =>
    let (r, d') := se_exec (se_state w) req in
    let w1 := set_se d' (se_trace w ++ [(req, r)]) w in
    let w2 := if is_success (resp_ret r)
              then match resp_done r with
                   | Some (O, st) => optiga_callback st (set_se_pending None w1)
                   | Some (S n, st) => set_se_pending (Some (n, st)) w1
                   | None => set_se_pending None w1
                   end
              else set_se_pending None w1 in
    Done (resp_ret r, resp_out r) w2.

(** [optiga_wait]: the loop [while (s_optiga_status == OPTIGA_LIB_BUSY)],
    followed for [n] evaluations of its condition. It only reads the
    shared status. *)
Fixpoint optiga_wait_loop (n : nat) (w : world dev) : result (world dev) bool :=
  match n with
  | O => Timeout
  | S n' =>
      if is_busy (s_optiga_status w)
      then optiga_wait_loop n' (pal_os_timer_delay_in_milliseconds 5 w)
      else Done (is_success (s_optiga_status w)) w
  end.

Definition optiga_wait : M bool := optiga_wait_loop polls.

(** [optiga_rng_fill]. The pair is the returned flag and the buffer
    [out], which holds the random bytes once the operation completed. *)
Definition optiga_rng_fill (out : list Z) (len : Z) : M (bool * list Z) :=
  modify (set_optiga_status OPTIGA_LIB_BUSY) ;;
  '(st, data) <- se_submit (optiga_crypt_random len) ;;
  if negb (is_success st) then ret (false, out)
  else
    ok <- optiga_wait ;;
    ret (ok, if ok then fill out data else out).

(** ** Key provisioning (main.c lines 140-230) *)

(** [optiga_key_ready]: the 64-byte [metadata] buffer is only written by
    the element; [metadata_len] goes in as its size and comes back as the
    length of the blob. *)
Definition optiga_key_ready : M bool :=
  let oid := OID_E200 in
  modify (set_optiga_status OPTIGA_LIB_BUSY) ;;
  '(r, data) <- se_submit (optiga_util_read_metadata oid 64) ;;
  if negb (is_success r) then ret false
  else
    ok <- optiga_wait ;;
    if negb ok then ret false
    else
      let metadata_len := Z.of_nat (length data) in
      if metadata_len =? 0 then ret false
      else
        ESP_LOGI "OPTIGA key metadata length: %u" ;;
        ret true.

Definition optiga_write_e200_metadata : M bool :=
  let oid := OID_E200 in
  ESP_LOGI "Writing metadata for OPTIGA key slot 0xE200" ;;
  modify (set_optiga_status OPTIGA_LIB_BUSY) ;;
  '(r, _) <- se_submit (optiga_util_write_metadata oid e200_metadata) ;;
  if negb (is_success r)
  then ESP_LOGE "optiga_util_write_metadata start failed: 0x%04X" ;; ret false
  else
    ok <- optiga_wait ;;
    if negb ok
    then ESP_LOGE "optiga_util_write_metadata failed" ;; ret false
    else ret true.

(** The part of [optiga_generate_key_if_enabled] after its [if]/[else]:
    generate and store the AES-128 key inside the element. *)
Definition optiga_generate_key : M bool :=
  ESP_LOGI "Generating AES-128 key in OPTIGA (OID 0xE200)..." ;;
  modify (set_optiga_status OPTIGA_LIB_BUSY) ;;
  '(r, _) <- se_submit optiga_crypt_symmetric_generate_key ;;
  if negb (is_success r)
  then ESP_LOGE "optiga_crypt_symmetric_generate_key start failed: 0x%04X" ;;
       ret false
  else
    ok <- optiga_wait ;;
    if negb ok
    then ESP_LOGE "optiga_crypt_symmetric_generate_key failed" ;; ret false
    else ESP_LOGI "AES key generated in OPTIGA" ;; ret true.

(** [optiga_generate_key_if_enabled], with the macro [GENERATE_KEY_ON_BOOT]
    as its argument. The [if]/[else] yields [Some b] where the C code
    returns [b] from inside it, and [None] where it falls through. *)
Definition optiga_generate_key_if_enabled (GENERATE_KEY_ON_BOOT : Z) : M bool :=
  early <-
    (if negb (GENERATE_KEY_ON_BOOT =? 0) then
       ESP_LOGW "GENERATE_KEY_ON_BOOT=1 (will overwrite key)" ;;
       ok <- optiga_write_e200_metadata ;;
       if negb ok then ret (Some false) else ret None
     else
       ready <- optiga_key_ready ;;
       if ready then
         ESP_LOGI "Using existing OPTIGA key (OID 0xE200)" ;;
         ret (Some true)
       else
         ESP_LOGI "OPTIGA key not ready. Initializing..." ;;
         ok <- optiga_write_e200_metadata ;;
         if negb ok then ret (Some false) else ret None) ;;
  match early with
  | Some b => ret b
  | None => optiga_generate_key
  end.

(** ** Record codec (main.c lines 260-312) *)

(** [encrypt_record]. [plaintext] and [record] are the buffers the two
    pointers point to; the pair returned is the flag and [record]
    afterwards. *)
Definition encrypt_record (plaintext : list Z) (pt_len : Z)
           (record : list Z) (record_len : Z) : M (bool * list Z) :=
  if record_len <? AES_IV_BYTES + PLAINTEXT_MAX then ret (false, record)
  else
    let iv := uninit AES_IV_BYTES in
    let ciphertext := uninit PLAINTEXT_MAX in
    '(ok, iv) <- optiga_rng_fill iv AES_IV_BYTES ;;
    if negb ok then ESP_LOGE "IV generation failed" ;; ret (false, record)
    else
      let pt_buf := uninit PLAINTEXT_MAX in
      let pt_buf := memset pt_buf 0 in
      pt_buf <- memcpy pt_buf 0 plaintext pt_len ;;
      modify (set_optiga_status OPTIGA_LIB_BUSY) ;;
      '(r, out) <- se_submit (optiga_crypt_symmetric_encrypt pt_buf iv) ;;
      if negb (is_success r)
      then ESP_LOGE "optiga_crypt_symmetric_encrypt start failed: 0x%04X" ;;
           ret (false, record)
      else
        ok <- optiga_wait ;;
        if negb ok
        then ESP_LOGE "optiga_crypt_symmetric_encrypt failed" ;;
             ret (false, record)
        else
          let ciphertext := fill ciphertext out in
          let cipher_len := Z.of_nat (length out) in
          if negb (cipher_len =? PLAINTEXT_MAX)
          then ESP_LOGE "unexpected ciphertext length: %lu" ;;
               ret (false, record)
          else
            record <- memcpy record 0 iv AES_IV_BYTES ;;
            record <- memcpy record AES_IV_BYTES ciphertext PLAINTEXT_MAX ;;
            ret (true, record).

(** ** Log store (main.c lines 243-258 and 314-345) *)

(** [snprintf(buf, size, ...)] for the text the format expands to: the
    return value is the length of the whole text, of which at most
    [size - 1] bytes and a terminating zero are stored; a negative value
    reports an output error. *)
Definition snprintf (buf : list Z) (size : Z) (text : list Z) : M (Z * list Z) :=
  fun w =>
    if snprintf_ok (plat w)
    then Done (Z.of_nat (length text),
               fill buf (firstn (Z.to_nat (size - 1)) text ++ [0])) w
    else Done (-1, buf) w.

(** [fopen(LOG_FILE_PATH, "ab")]: creates the file when there is none. *)
Definition fopen_ab : M bool :=
  fun w =>
    if fopen_ok (plat w)
    then Done true (set_storage (plat w)
                      (Some (match log_file w with Some c => c | None => [] end)) w)
    else Done false w.

(** [fopen(LOG_FILE_PATH, "rb")]: the content to read, if the file opens. *)
Definition fopen_rb : M (option (list Z)) :=
  fun w => if fopen_ok (plat w) then Done (log_file w) w else Done None w.

(** [fwrite(data, 1, n, f)] on the log file opened for append: the
    storage takes as many of the [n] bytes as it has room for; their number
    is the value returned. *)
Definition fwrite (data : list Z) (n : Z) : M Z :=
  fun w =>
    let k := Nat.min (Z.to_nat n) (fs_free (plat w)) in
    let p := plat w in
    let content := match log_file w with Some c => c | None => [] end in
    Done (Z.of_nat k)
         (set_storage
            (mkPlatform (uptime_us p) (snprintf_ok p) (fopen_ok p) (fs_free p - k))
            (Some (content ++ firstn k data)) w).

(** [fclose(f)]. *)
Definition fclose : M Z := ret 0.

(** [append_encrypted_record]. *)
Definition append_encrypted_record : M unit :=
  let msg := uninit PLAINTEXT_MAX in
  now <- gets (fun w => uptime_us (plat w)) ;;
  let uptime_ms := Z.quot now 1000 in
  modify (fun w => set_log_seq (wrap32 (s_log_seq w + 1)) w) ;;
  seq <- gets s_log_seq ;;
  '(written, msg) <- snprintf msg PLAINTEXT_MAX (format_msg seq uptime_ms) ;;
  if written <? 0 then ESP_LOGE "snprintf failed"
  else
    let record := uninit (AES_IV_BYTES + PLAINTEXT_MAX) in
    '(ok, record) <- encrypt_record msg written record
                                    (AES_IV_BYTES + PLAINTEXT_MAX) ;;
    if negb ok then ESP_LOGE "encrypt_record failed"
    else
      f <- fopen_ab ;;
      if negb f then ESP_LOGE "failed to open log file for append"
      else
        _ <- fwrite record (AES_IV_BYTES + PLAINTEXT_MAX) ;;
        _ <- fclose ;;
        ESP_LOGI "encrypted: %s".

(** The loop of [print_log_file_hex] over what is left to read:
    [fread] takes up to 32 bytes, the loop ends when it takes none. *)
Equations? hex_dump_loop (rest : list Z) (w : world dev) : world dev
  by wf (length rest) lt :=
  hex_dump_loop [] w := w;
  hex_dump_loop (b :: tl) w :=
    hex_dump_loop (skipn HEX_CHUNK (b :: tl))
      (push_log (LogHex ESP_LOG_INFO (firstn HEX_CHUNK (b :: tl))) w).
Proof.
  change (length (skipn 31 tl) < S (length tl))%nat.
  rewrite length_skipn. lia.
Qed.

(** [print_log_file_hex]. *)
Definition print_log_file_hex : M unit :=
  f <- fopen_rb ;;
  match f with
  | None => ESP_LOGI "no existing log file found."
  | Some content =>
      ESP_LOGI "raw file content (hex):" ;;
      modify (hex_dump_loop content) ;;
      _ <- fclose ;;
      ret tt
  end.

(** ** Commands and start-up (main.c lines 123-138, 235-241, 347-473) *)

(** [optiga_crypto_init]: the two instances are created in turn; the
    handles are only ever passed back to the driver. *)
Definition optiga_crypto_init (env : boot_env) : M bool :=
  if negb (crypt_created env)
  then ESP_LOGE "optiga_crypt_create failed" ;; ret false
  else if negb (util_created env)
       then ESP_LOGE "optiga_util_create failed" ;; ret false
       else ret true.

Definition print_usage : M unit :=
  ESP_LOGI "Commands:" ;;
  ESP_LOGI "  a - append encrypted record" ;;
  ESP_LOGI "  c - clear log file" ;;
  ESP_LOGI "  p - print raw file (hex)".

(** [fopen(LOG_FILE_PATH, "wb")]: the file is created or cut to length
    zero, which frees the room its content took. *)
Definition fopen_wb : M bool :=
  fun w =>
    if fopen_ok (plat w)
    then
      let p := plat w in
      let old := match log_file w with Some c => c | None => [] end in
      Done true
           (set_storage
              (mkPlatform (uptime_us p) (snprintf_ok p) (fopen_ok p)
                          (fs_free p + length old))
              (Some []) w)
    else Done false w.

Definition clear_log_file : M unit :=
  f <- fopen_wb ;;
  if negb f then ESP_LOGE "failed to open log file for clearing."
  else
    _ <- fclose ;;
    ESP_LOGI "log cleared.".

(** [mount_storage], with the macro [LOG_STORAGE_SDMMC] as its
    argument. *)
Definition mount_storage (LOG_STORAGE_SDMMC : Z) (env : boot_env) : M esp_err_t :=
  let err := mount_result env in
  if negb (LOG_STORAGE_SDMMC =? 0) then
    (if negb (is_esp_ok err)
     then ESP_LOGE "Failed to mount SD card (err=0x%x)" ;; ret err
     else ret err)
  else
    (if negb (is_esp_ok err)
     then ESP_LOGE "Failed to mount FATFS (err=0x%x)" ;; ret err
     else ret err).

(** [setup_uart] and [optiga_trust_init]: their results are ignored and
    they touch nothing of the state kept here. *)
Definition setup_uart : M unit := ret tt.
Definition optiga_trust_init : M unit := ret tt.

(** The [switch] of [command_loop] on the character read. *)
Definition command_step (ch : Z) : M unit :=
  if (ch =? chr "a"%char) || (ch =? chr "A"%char) || (ch =? chr "1"%char)
  then append_encrypted_record
  else if (ch =? chr "c"%char) || (ch =? chr "C"%char) || (ch =? chr "2"%char)
  then clear_log_file
  else if (ch =? chr "p"%char) || (ch =? chr "P"%char)
  then print_log_file_hex
  else if (ch =? 13) || (ch =? 10)          (* carriage return, line feed *)
  then ret tt
  else ESP_LOGW "unknown command: %c" ;; print_usage.

(** [command_loop]. The loop never ends; it is followed for the reads of
    [uart_read_bytes] listed in [feed], each the value returned and the
    byte stored in [ch]. *)
Fixpoint command_loop (feed : list (Z * Z)) : M unit :=
  match feed with
  | [] => ret tt
  | (len, ch) :: rest =>
      if len <=? 0 then command_loop rest
      else command_step ch ;; command_loop rest
  end.

(** [app_main], with the two macros as arguments. *)
Definition app_main (LOG_STORAGE_SDMMC GENERATE_KEY_ON_BOOT : Z)
           (env : boot_env) (feed : list (Z * Z)) : M unit :=
  setup_uart ;;
  ESP_LOGI "Encrypted data logging demo (ESP-IDF)" ;;
  err <- mount_storage LOG_STORAGE_SDMMC env ;;
  if negb (is_esp_ok err) then ESP_LOGE "mount failed. Check partition table."
  else
    optiga_trust_init ;;
    ok <- optiga_crypto_init env ;;
    if negb ok then ESP_LOGE "optiga init failed"
    else
      ok <- optiga_generate_key_if_enabled GENERATE_KEY_ON_BOOT ;;
      if negb ok then ESP_LOGE "optiga key init failed"
      else
        print_log_file_hex ;;
        print_usage ;;
        command_loop feed.

(** ** Notions used in the statements *)

(** The pattern every driver call of main.c follows: mark the shared
    status busy, submit, and when the request was accepted wait for its
    completion. The triple is: accepted, completed with success, and the
    output bytes. *)
Definition se_call (req : se_request) : M (bool * bool * list Z) :=
  modify (set_optiga_status OPTIGA_LIB_BUSY) ;;
  '(r, data) <- se_submit req ;;
  if negb (is_success r) then ret (false, false, data)
  else
    ok <- optiga_wait ;;
    ret (true, ok, data).

(** The answer of the element to [req] in [w]. *)
Definition se_answer (w : world dev) (req : se_request) : se_response :=
  fst (se_exec (se_state w) req).

(** The world once [req] has been submitted in [w] and, when accepted,
    completed. *)
Definition se_after (req : se_request) (w : world dev) : world dev :=
  let a := se_answer w req in
  mkWorld (s_log_seq w)
          (if is_success (resp_ret a)
           then match resp_done a with
                | Some (_, st) => st
                | None => OPTIGA_LIB_BUSY
                end
           else OPTIGA_LIB_BUSY)
          (snd (se_exec (se_state w) req))
          None
          (se_trace w ++ [(req, a)])
          (plat w) (log_file w) (esp_log w).

(** An accepted request completes within the polls the run is followed
    for, with a status other than busy. *)
Definition in_time (a : se_response) : bool :=
  if is_success (resp_ret a)
  then match resp_done a with
       | Some (k, st) => (k <? polls)%nat && negb (is_busy st)
       | None => false
       end
  else true.

Definition responsive : Prop :=
  forall (d : dev) (req : se_request), in_time (fst (se_exec d req)) = true.

(** Several lines added to the ESP log. *)
Definition push_logs (ls : list log_line) (w : world dev) : world dev :=
  mkWorld (s_log_seq w) (s_optiga_status w) (se_state w) (se_pending w)
          (se_trace w) (plat w) (log_file w) (esp_log w ++ ls).

(** The world once [fopen_ab] has succeeded and [fwrite] has written
    what the storage takes of the first [n] bytes of [data]. *)
Definition stored (data : list Z) (n : Z) (w : world dev) : world dev :=
  let k := Nat.min (Z.to_nat n) (fs_free (plat w)) in
  let p := plat w in
  set_storage
    (mkPlatform (uptime_us p) (snprintf_ok p) (fopen_ok p) (fs_free p - k))
    (Some (match log_file w with Some c => c | None => [] end ++ firstn k data))
    w.

(** A function that, when it returns, has left the sequence counter, the
    platform and the log file as they were. *)
Definition keeps_store {A} (m : M A) : Prop :=
  forall w a w',
    m w = Done a w' ->
    s_log_seq w' = s_log_seq w /\ plat w' = plat w /\ log_file w' = log_file w.

(** The plaintext buffer handed to the element: the message followed by
    zeros up to 64 bytes. *)
Definition zero_padded (plaintext : list Z) (pt_len : Z) : list Z :=
  firstn (Z.to_nat pt_len) plaintext
    ++ repeat 0 (Z.to_nat (PLAINTEXT_MAX - pt_len)).

(** The content of the log file, empty when there is none. *)
Definition content (w : world dev) : list Z :=
  match log_file w with Some c => c | None => [] end.

(** An element on which every request succeeds in time, and every
    encryption returns 64 bytes. *)
Definition always_ok : Prop :=
  forall (d : dev) (req : se_request),
    let a := fst (se_exec d req) in
    in_time a = true
    /\ completes_ok a = true
    /\ match req with
       | optiga_crypt_symmetric_encrypt _ _ => length (resp_out a) = 64%nat
       | _ => True
       end.

(** What every command leaves as it is: the clock and the behaviour of
    the C library and of [fopen]. *)
Definition same_platform (w w' : world dev) : Prop :=
  uptime_us (plat w') = uptime_us (plat w)
  /\ snprintf_ok (plat w') = snprintf_ok (plat w)
  /\ fopen_ok (plat w') = fopen_ok (plat w).

(** The lines of the hex dump of a file: one per 32 bytes. *)
Definition hex_lines (content : list Z) : list log_line :=
  map (fun k => LogHex ESP_LOG_INFO
                       (firstn HEX_CHUNK (skipn (HEX_CHUNK * k) content)))
      (seq 0 ((length content + (HEX_CHUNK - 1)) / HEX_CHUNK)).

(** How many reads of a feed deliver an append key. *)
Definition appends_in (feed : list (Z * Z)) : Z :=
  Z.of_nat (length (filter (fun r => negb (fst r <=? 0) && is_append_key (snd r))
                           feed)).

(** What writing the metadata and then generating the key comes to,
    starting in [w]: the flag returned and the requests submitted. The key
    is generated only when the write completed with success. *)
Definition write_then_generate (w : world dev)
  : bool * list (se_request * se_response) :=
  let wr := optiga_util_write_metadata OID_E200 e200_metadata in
  let gen := optiga_crypt_symmetric_generate_key in
  let aw := se_answer w wr in
  if completes_ok aw
  then let ag := se_answer (se_after wr w) gen in
       (completes_ok ag, [(wr, aw); (gen, ag)])
  else (false, [(wr, aw)]).

Definition is_read_metadata (e : se_request * se_response) : bool :=
  match fst e with optiga_util_read_metadata _ _ => true | _ => false end.

(** * Properties *)

(** ** The monad *)

Lemma bind_eq {A B} (m : M A) (k : A -> M B) w :
  bind m k w = match m w with
               | Done a w' => k a w'
               | Undefined => Undefined
               | Timeout => Timeout
               end.
Proof. reflexivity. Qed.

(** ** The waiter *)

(** With the status busy and no callback to come the loop never ends. *)
Lemma optiga_wait_loop_stuck n seq d tr p f lg :
  optiga_wait_loop n (mkWorld seq OPTIGA_LIB_BUSY d None tr p f lg) = Timeout.
Proof. induction n as [|n IH]; simpl; [reflexivity | exact IH]. Qed.

(** With a callback due after [k] more delays the loop ends after
    [k + 2] evaluations of its condition, unless the callback stores
    busy again. The status it leaves is the one the callback stored. *)
Lemma optiga_wait_loop_pending k : forall n seq d st tr p f lg,
  optiga_wait_loop n (mkWorld seq OPTIGA_LIB_BUSY d (Some (k, st)) tr p f lg)
  = if (S k <? n)%nat && negb (is_busy st)
    then Done (is_success st) (mkWorld seq st d None tr p f lg)
    else Timeout.
Proof.
  induction k as [|k IH]; intros n seq d st tr p f lg.
  - destruct n as [|[|n]]; simpl; try reflexivity.
    unfold pal_os_timer_delay_in_milliseconds, optiga_callback,
      set_optiga_status, set_se_pending; simpl.
    destruct st; simpl; try reflexivity.
    apply optiga_wait_loop_stuck.
  - destruct n as [|n]; simpl; [reflexivity|].
    unfold pal_os_timer_delay_in_milliseconds, set_se_pending; simpl.
    rewrite IH. reflexivity.
Qed.

(** A status that is not busy ends the loop at once. *)
Lemma optiga_wait_loop_settled n seq d st pd tr p f lg :
  is_busy st = false ->
  optiga_wait_loop (S n) (mkWorld seq st d pd tr p f lg)
  = Done (is_success st) (mkWorld seq st d pd tr p f lg).
Proof. intros H. simpl. rewrite H. reflexivity. Qed.

(** The waiter in every state it can be entered in. With the status busy
    it returns when the callback to come fires within the polls followed,
    in the state the callback leaves; with the status settled already it
    returns at once, having changed nothing. *)
Lemma optiga_wait_eq w :
  optiga_wait w
  = if is_busy (s_optiga_status w)
    then match se_pending w with
         | Some (k, st) =>
             if (S k <? polls)%nat && negb (is_busy st)
             then Done (is_success st)
                       (optiga_callback st (set_se_pending None w))
             else Timeout
         | None => Timeout
         end
    else match polls with
         | O => Timeout
         | S _ => Done (is_success (s_optiga_status w)) w
         end.
Proof.
  destruct w as [seq s0 d pd tr p f lg]. unfold optiga_wait.
  cbn [s_optiga_status se_pending].
  destruct s0; cbn [is_busy].
  - destruct polls; reflexivity.
  - destruct pd as [[k st]|].
    + rewrite optiga_wait_loop_pending. reflexivity.
    + apply optiga_wait_loop_stuck.
  - destruct polls; reflexivity.
Qed.

(** ** One driver call *)

(** A driver call either runs out of polls or ends in [se_after]; it
    never leaves a buffer. *)
Lemma se_call_spec req w :
  se_call req w
  = if in_time (se_answer w req)
    then Done (is_success (resp_ret (se_answer w req)),
               completes_ok (se_answer w req),
               resp_out (se_answer w req))
              (se_after req w)
    else Timeout.
Proof.
  unfold se_call, se_after, se_answer, in_time, completes_ok, bind, modify,
    se_submit, optiga_wait, ret.
  destruct w as [seq s0 d pd tr p f lg]; simpl.
  destruct (se_exec d req) as [a d']; simpl.
  destruct (is_success (resp_ret a)); simpl; [|reflexivity].
  destruct (resp_done a) as [[[|k] st]|]; simpl.
  - unfold optiga_callback, set_optiga_status, set_se_pending, set_se; simpl.
    destruct polls as [|n]; simpl; [reflexivity|].
    destruct st; simpl; try reflexivity.
    unfold pal_os_timer_delay_in_milliseconds; simpl.
    rewrite optiga_wait_loop_stuck. reflexivity.
  - unfold set_se_pending, set_se, set_optiga_status; simpl.
    rewrite optiga_wait_loop_pending.
    destruct ((S k <? polls)%nat && negb (is_busy st)); reflexivity.
  - unfold set_se_pending, set_se, set_optiga_status; simpl.
    rewrite optiga_wait_loop_stuck. reflexivity.
Qed.

(** Each driver call of main.c is an instance of [se_call]. *)
Ltac fold_se_call :=
  unfold se_call, ESP_LOGE, ESP_LOGI, bind, modify, ret;
  cbv beta iota;
  match goal with
  | |- context [se_submit ?req ?w] =>
      destruct (se_submit req w) as [[r data] w1| |]; simpl; try reflexivity;
      destruct (is_success r); simpl; try reflexivity;
      destruct (optiga_wait w1) as [[|] w2| |]; simpl; try reflexivity;
      repeat (match goal with
              | |- context [if ?b then _ else _] => destruct b
              end; simpl);
      reflexivity
  end.

Lemma optiga_rng_fill_call out len w :
  optiga_rng_fill out len w
  = ('(started, ok, data) <- se_call (optiga_crypt_random len) ;;
     ret (started && ok, if started && ok then fill out data else out)) w.
Proof. unfold optiga_rng_fill. fold_se_call. Qed.

Lemma optiga_key_ready_call w :
  optiga_key_ready w
  = ('(started, ok, data) <- se_call (optiga_util_read_metadata OID_E200 64) ;;
     if started && ok && negb (Z.of_nat (length data) =? 0)
     then ESP_LOGI "OPTIGA key metadata length: %u" ;; ret true
     else ret false) w.
Proof. unfold optiga_key_ready. fold_se_call. Qed.

Lemma optiga_write_e200_metadata_call w :
  optiga_write_e200_metadata w
  = (ESP_LOGI "Writing metadata for OPTIGA key slot 0xE200" ;;
     '(started, ok, _) <-
        se_call (optiga_util_write_metadata OID_E200 e200_metadata) ;;
     if negb started
     then ESP_LOGE "optiga_util_write_metadata start failed: 0x%04X" ;;
          ret false
     else if negb ok
          then ESP_LOGE "optiga_util_write_metadata failed" ;; ret false
          else ret true) w.
Proof. unfold optiga_write_e200_metadata. fold_se_call. Qed.

Lemma optiga_generate_key_call w :
  optiga_generate_key w
  = (ESP_LOGI "Generating AES-128 key in OPTIGA (OID 0xE200)..." ;;
     '(started, ok, _) <- se_call optiga_crypt_symmetric_generate_key ;;
     if negb started
     then ESP_LOGE "optiga_crypt_symmetric_generate_key start failed: 0x%04X" ;;
          ret false
     else if negb ok
          then ESP_LOGE "optiga_crypt_symmetric_generate_key failed" ;;
               ret false
          else ESP_LOGI "AES key generated in OPTIGA" ;; ret true) w.
Proof. unfold optiga_generate_key. fold_se_call. Qed.

Lemma se_call_inline {B} req (kstart kfail : M B) (kok : list Z -> M B) w :
  (modify (set_optiga_status OPTIGA_LIB_BUSY) ;;
   '(r, out) <- se_submit req ;;
   if negb (is_success r) then kstart
   else ok <- optiga_wait ;; if negb ok then kfail else kok out) w
  = ('(started, ok, out) <- se_call req ;;
     if negb started then kstart
     else if negb ok then kfail else kok out) w.
Proof. fold_se_call. Qed.

(** ** Buffers *)

Lemma length_uninit n : length (uninit n) = Z.to_nat n.
Proof. unfold uninit. rewrite length_map, length_seq. reflexivity. Qed.

Lemma length_memset buf c : length (memset buf c) = length buf.
Proof. apply length_map. Qed.

Lemma memset_repeat buf c : memset buf c = repeat c (length buf).
Proof. induction buf as [|b buf IH]; simpl; [reflexivity | now rewrite <- IH]. Qed.

Lemma skipn_repeat_Z (c : Z) k n : skipn k (repeat c n) = repeat c (n - k).
Proof.
  revert n; induction k as [|k IH]; intros [|n]; simpl; try reflexivity.
  apply IH.
Qed.

Lemma length_fill buf out : length (fill buf out) = length buf.
Proof.
  unfold fill. rewrite length_app, length_firstn, length_skipn. lia.
Qed.

(** An output buffer filled with as many bytes as it holds is exactly
    those bytes. *)
Lemma fill_exact buf out : length out = length buf -> fill buf out = out.
Proof.
  intros H. unfold fill. rewrite <- H, firstn_all.
  rewrite skipn_all2 by lia. apply app_nil_r.
Qed.

Lemma memcpy_run dst off src n w :
  0 <= n <= Z.of_nat (length src) ->
  0 <= off -> off + n <= Z.of_nat (length dst) ->
  memcpy dst off src n w
  = Done (firstn (Z.to_nat off) dst ++ firstn (Z.to_nat n) src
            ++ skipn (Z.to_nat (off + n)) dst) w.
Proof.
  intros Hn Hoff Hdst. unfold memcpy.
  replace (0 <=? n) with true by (symmetry; apply Z.leb_le; lia).
  replace (n <=? Z.of_nat (length src)) with true
    by (symmetry; apply Z.leb_le; lia).
  replace (0 <=? off) with true by (symmetry; apply Z.leb_le; lia).
  replace (off + n <=? Z.of_nat (length dst)) with true
    by (symmetry; apply Z.leb_le; lia).
  reflexivity.
Qed.

(** A copy longer than the destination is outside it. *)
Lemma memcpy_overflow dst src n w :
  Z.of_nat (length dst) < n -> memcpy dst 0 src n w = Undefined.
Proof.
  intros H. unfold memcpy.
  replace (0 + n <=? Z.of_nat (length dst)) with false
    by (symmetry; apply Z.leb_gt; lia).
  rewrite andb_false_r. reflexivity.
Qed.

(** The copy of [encrypt_record] into its zeroed 64-byte buffer. *)
Lemma pt_buf_zero_padded plaintext pt_len w :
  0 <= pt_len <= PLAINTEXT_MAX ->
  pt_len <= Z.of_nat (length plaintext) ->
  memcpy (memset (uninit PLAINTEXT_MAX) 0) 0 plaintext pt_len w
  = Done (zero_padded plaintext pt_len) w.
Proof.
  intros Hn Hsrc. rewrite memcpy_run.
  - unfold zero_padded.
    change (Z.to_nat 0) with 0%nat. change (0 + pt_len) with pt_len.
    rewrite firstn_0, app_nil_l.
    rewrite memset_repeat, length_uninit, skipn_repeat_Z.
    do 3 f_equal. unfold PLAINTEXT_MAX in *. lia.
  - lia.
  - lia.
  - rewrite length_memset, length_uninit. unfold PLAINTEXT_MAX in *. lia.
Qed.

(** ** The driver calls of main.c in closed form *)

Lemma se_answer_push_log req l w :
  se_answer (push_log l w) req = se_answer w req.
Proof. reflexivity. Qed.

Lemma se_after_push_log req l w :
  se_after req (push_log l w) = push_log l (se_after req w).
Proof. reflexivity. Qed.

Lemma push_log_one l w : push_log l w = push_logs [l] w.
Proof. reflexivity. Qed.

Lemma push_logs_app l1 l2 w :
  push_logs l2 (push_logs l1 w) = push_logs (l1 ++ l2) w.
Proof. unfold push_logs; simpl. now rewrite app_assoc. Qed.

Lemma push_logs_nil w : push_logs [] w = w.
Proof. destruct w. unfold push_logs; simpl. now rewrite app_nil_r. Qed.

Ltac branch := cbv beta iota; cbn [negb]; cbv beta iota.

Ltac norm_logs :=
  unfold ESP_LOGE, ESP_LOGW, ESP_LOGI, bind, modify, ret;
  rewrite ?push_log_one, ?push_logs_app; simpl app.

Lemma optiga_rng_fill_run out len w :
  optiga_rng_fill out len w
  = let a := se_answer w (optiga_crypt_random len) in
    if in_time a
    then Done (completes_ok a,
               if completes_ok a then fill out (resp_out a) else out)
              (se_after (optiga_crypt_random len) w)
    else Timeout.
Proof.
  rewrite optiga_rng_fill_call, bind_eq, se_call_spec. cbv zeta.
  destruct (in_time _); [|reflexivity].
  unfold completes_ok, ret.
  destruct (is_success (resp_ret _)); reflexivity.
Qed.

Lemma optiga_key_ready_run w :
  optiga_key_ready w
  = let req := optiga_util_read_metadata OID_E200 64 in
    let a := se_answer w req in
    if in_time a
    then Done (metadata_present a)
              (push_logs (if metadata_present a
                          then [LogLine ESP_LOG_INFO
                                        "OPTIGA key metadata length: %u"]
                          else [])
                         (se_after req w))
    else Timeout.
Proof.
  rewrite optiga_key_ready_call, bind_eq, se_call_spec. cbv zeta.
  destruct (in_time _); [|reflexivity].
  unfold metadata_present, completes_ok.
  destruct (is_success (resp_ret _)); simpl;
    [destruct (match resp_done _ with Some _ => _ | None => _ end); simpl;
     [destruct (_ =? 0); simpl|]|];
    norm_logs; rewrite ?push_logs_nil; reflexivity.
Qed.

Lemma optiga_write_e200_metadata_run w :
  optiga_write_e200_metadata w
  = let req := optiga_util_write_metadata OID_E200 e200_metadata in
    let a := se_answer w req in
    if in_time a
    then Done (completes_ok a)
              (push_logs
                 (LogLine ESP_LOG_INFO
                          "Writing metadata for OPTIGA key slot 0xE200"
                  :: if completes_ok a then []
                     else if is_success (resp_ret a)
                          then [LogLine ESP_LOG_ERROR
                                        "optiga_util_write_metadata failed"]
                          else [LogLine ESP_LOG_ERROR
                                  "optiga_util_write_metadata start failed: 0x%04X"])
                 (se_after req w))
    else Timeout.
Proof.
  rewrite optiga_write_e200_metadata_call. unfold ESP_LOGI at 1.
  rewrite bind_eq. unfold modify at 1. rewrite bind_eq, se_call_spec.
  cbv zeta. rewrite se_after_push_log, !se_answer_push_log.
  destruct (in_time _); [|reflexivity].
  unfold completes_ok.
  destruct (is_success (resp_ret _)); simpl;
    [destruct (match resp_done _ with Some _ => _ | None => _ end); simpl|];
    norm_logs; reflexivity.
Qed.

Lemma optiga_generate_key_run w :
  optiga_generate_key w
  = let req := optiga_crypt_symmetric_generate_key in
    let a := se_answer w req in
    if in_time a
    then Done (completes_ok a)
              (push_logs
                 [LogLine ESP_LOG_INFO
                          "Generating AES-128 key in OPTIGA (OID 0xE200)...";
                  if completes_ok a
                  then LogLine ESP_LOG_INFO "AES key generated in OPTIGA"
                  else if is_success (resp_ret a)
                       then LogLine ESP_LOG_ERROR
                              "optiga_crypt_symmetric_generate_key failed"
                       else LogLine ESP_LOG_ERROR
                              "optiga_crypt_symmetric_generate_key start failed: 0x%04X"]
                 (se_after req w))
    else Timeout.
Proof.
  rewrite optiga_generate_key_call. unfold ESP_LOGI at 1.
  rewrite bind_eq. unfold modify at 1. rewrite bind_eq, se_call_spec.
  cbv zeta. rewrite se_after_push_log, !se_answer_push_log.
  destruct (in_time _); [|reflexivity].
  unfold completes_ok.
  destruct (is_success (resp_ret _)); simpl;
    [destruct (match resp_done _ with Some _ => _ | None => _ end); simpl|];
    norm_logs; reflexivity.
Qed.

(** ** The record codec in closed form *)

(** [encrypt_record] on buffers of the stated sizes, step by step: the
    two driver calls, each of which may run out of polls, be refused or
    fail, then the length check, then the record. *)
Lemma encrypt_record_run plaintext pt_len record record_len w :
  AES_IV_BYTES + PLAINTEXT_MAX <= record_len ->
  0 <= pt_len <= PLAINTEXT_MAX ->
  pt_len <= Z.of_nat (length plaintext) ->
  AES_IV_BYTES + PLAINTEXT_MAX <= Z.of_nat (length record) ->
  let rq1 := optiga_crypt_random AES_IV_BYTES in
  let a1 := se_answer w rq1 in
  let w1 := se_after rq1 w in
  let iv := fill (uninit AES_IV_BYTES) (resp_out a1) in
  let rq2 := optiga_crypt_symmetric_encrypt (zero_padded plaintext pt_len) iv in
  let a2 := se_answer w1 rq2 in
  let w2 := se_after rq2 w1 in
  encrypt_record plaintext pt_len record record_len w
  = if negb (in_time a1) then Timeout
    else if negb (completes_ok a1)
    then Done (false, record)
              (push_logs [LogLine ESP_LOG_ERROR "IV generation failed"] w1)
    else if negb (in_time a2) then Timeout
    else if negb (is_success (resp_ret a2))
    then Done (false, record)
              (push_logs [LogLine ESP_LOG_ERROR
                            "optiga_crypt_symmetric_encrypt start failed: 0x%04X"]
                         w2)
    else if negb (completes_ok a2)
    then Done (false, record)
              (push_logs [LogLine ESP_LOG_ERROR
                            "optiga_crypt_symmetric_encrypt failed"] w2)
    else if negb (Z.of_nat (length (resp_out a2)) =? PLAINTEXT_MAX)
    then Done (false, record)
              (push_logs [LogLine ESP_LOG_ERROR
                            "unexpected ciphertext length: %lu"] w2)
    else Done (true, iv ++ resp_out a2 ++ skipn RECORD_BYTES record) w2.
Proof.
  intros Hlen Hpt Hsrc Hrec rq1 a1 w1 iv rq2 a2 w2.
  unfold encrypt_record.
  replace (record_len <? AES_IV_BYTES + PLAINTEXT_MAX) with false
    by (symmetry; apply Z.ltb_ge; lia).
  rewrite bind_eq, optiga_rng_fill_run. cbv zeta. fold rq1 a1 w1.
  destruct (in_time a1); branch; [|reflexivity].
  destruct (completes_ok a1); branch.
  2:{ norm_logs. reflexivity. }
  fold iv.
  rewrite bind_eq, pt_buf_zero_padded by assumption.
  rewrite se_call_inline, bind_eq, se_call_spec. fold rq2 a2 w2.
  destruct (in_time a2); branch; [|reflexivity].
  unfold completes_ok.
  destruct (is_success (resp_ret a2)); cbn [andb]; branch.
  2:{ norm_logs. reflexivity. }
  destruct (match resp_done a2 with Some _ => _ | None => _ end);
    branch.
  2:{ norm_logs. reflexivity. }
  destruct (Z.of_nat (length (resp_out a2)) =? PLAINTEXT_MAX) eqn:Hct;
    branch.
  2:{ norm_logs. reflexivity. }
  apply Z.eqb_eq in Hct.
  assert (Hiv : length iv = 16%nat)
    by (unfold iv; rewrite length_fill, length_uninit; reflexivity).
  assert (Hfill : fill (uninit PLAINTEXT_MAX) (resp_out a2) = resp_out a2).
  { apply fill_exact. rewrite length_uninit. unfold PLAINTEXT_MAX in *. lia. }
  rewrite Hfill.
  unfold AES_IV_BYTES, PLAINTEXT_MAX in *.
  rewrite bind_eq, memcpy_run by lia.
  rewrite bind_eq, memcpy_run.
  - unfold ret. do 2 f_equal.
    change (Z.to_nat 0) with 0%nat. change (Z.to_nat 16) with 16%nat.
    change (Z.to_nat 64) with 64%nat. change (Z.to_nat (0 + 16)) with 16%nat.
    change (Z.to_nat (16 + 64)) with 80%nat.
    change RECORD_BYTES with 80%nat.
    rewrite firstn_0, app_nil_l.
    assert (E0 : firstn 16 iv = iv) by (rewrite <- Hiv; apply firstn_all).
    assert (E1 : firstn 64 (resp_out a2) = resp_out a2)
      by (apply firstn_all2; lia).
    rewrite E0, E1, firstn_app, E0, Hiv.
    change (16 - 16)%nat with 0%nat. rewrite firstn_0, app_nil_r.
    rewrite skipn_app, (skipn_all2 iv), Hiv by lia.
    rewrite app_nil_l, skipn_skipn. reflexivity.
  - lia.
  - lia.
  - rewrite !length_app, !length_firstn, length_skipn, Hiv.
    change (Z.to_nat 0) with 0%nat. change (Z.to_nat 16) with 16%nat.
    change (Z.to_nat (0 + 16)) with 16%nat. lia.
Qed.

(** ** What the secure-element side leaves alone *)

Lemma keeps_store_ret {A} (a : A) : keeps_store (ret a).
Proof. intros w a' w' H. inversion H; subst. auto. Qed.

Lemma keeps_store_bind {A B} (m : M A) (k : A -> M B) :
  keeps_store m -> (forall a, keeps_store (k a)) -> keeps_store (bind m k).
Proof.
  intros Hm Hk w b w' H. rewrite bind_eq in H.
  destruct (m w) as [a w1| |] eqn:E; try discriminate.
  destruct (Hm _ _ _ E) as (H1 & H2 & H3).
  destruct (Hk a _ _ _ H) as (K1 & K2 & K3).
  repeat split; congruence.
Qed.

Lemma keeps_store_status st : keeps_store (modify (set_optiga_status st)).
Proof. intros w a w' H. inversion H; subst. auto. Qed.

Lemma keeps_store_log l : keeps_store (modify (push_log l)).
Proof. intros w a w' H. inversion H; subst. auto. Qed.

Lemma keeps_store_undefined {A} : keeps_store (@undefined_behaviour A).
Proof. intros w a w' H. discriminate. Qed.

Lemma keeps_store_memcpy dst off src n : keeps_store (memcpy dst off src n).
Proof.
  unfold memcpy. destruct (_ && _).
  - apply keeps_store_ret.
  - apply keeps_store_undefined.
Qed.

Lemma keeps_store_se_submit req : keeps_store (se_submit req).
Proof.
  intros w a w' H. unfold se_submit in H.
  destruct (se_exec (se_state w) req) as [r d'].
  inversion H; subst; clear H.
  destruct (is_success (resp_ret r)); [|auto].
  destruct (resp_done r) as [[[|k] st]|]; auto.
Qed.

Lemma optiga_wait_loop_store n : forall w ok w',
  optiga_wait_loop n w = Done ok w' ->
  s_log_seq w' = s_log_seq w /\ plat w' = plat w /\ log_file w' = log_file w.
Proof.
  induction n as [|n IH]; intros w ok w' H; simpl in H; [discriminate|].
  destruct (is_busy (s_optiga_status w)).
  - apply IH in H. destruct H as (H1 & H2 & H3).
    unfold pal_os_timer_delay_in_milliseconds in *.
    destruct (se_pending w) as [[[|k] st]|]; auto.
  - inversion H; subst. auto.
Qed.

Lemma keeps_store_optiga_wait : keeps_store optiga_wait.
Proof. intros w ok w'. apply optiga_wait_loop_store. Qed.

Ltac keeps_store_steps :=
  repeat first
    [ apply keeps_store_ret
    | apply keeps_store_status
    | apply keeps_store_log
    | apply keeps_store_memcpy
    | apply keeps_store_se_submit
    | apply keeps_store_optiga_wait
    | apply keeps_store_bind; [|intros ?]
    | match goal with
      | |- keeps_store (if ?b then _ else _) => destruct b
      | |- keeps_store (match ?x with (_, _) => _ end) => destruct x
      end ].

Lemma keeps_store_optiga_rng_fill out len : keeps_store (optiga_rng_fill out len).
Proof. unfold optiga_rng_fill. keeps_store_steps. Qed.

Lemma keeps_store_encrypt_record plaintext pt_len record record_len :
  keeps_store (encrypt_record plaintext pt_len record record_len).
Proof.
  unfold encrypt_record, ESP_LOGE.
  destruct (record_len <? _); [apply keeps_store_ret|].
  apply keeps_store_bind; [apply keeps_store_optiga_rng_fill|].
  intros [ok iv]. keeps_store_steps.
Qed.

(** ** The length of the message *)

(** A number below [10 ^ (k + 1)] has at most [k + 1] digits. *)
Lemma dec_digits_length n : forall v acc k,
  0 <= v < 10 ^ Z.of_nat (S k) ->
  (length (dec_digits n v acc) <= length acc + S k)%nat.
Proof.
  induction n as [|n IH]; intros v acc k Hv; cbn [dec_digits].
  - lia.
  - destruct (v / 10 =? 0) eqn:E.
    + cbn [length]. lia.
    + apply Z.eqb_neq in E.
      destruct k as [|k].
      * exfalso. apply E. apply Z.div_small.
        change (10 ^ Z.of_nat 1) with 10 in Hv. lia.
      * specialize (IH (v / 10) ((48 + v mod 10) :: acc) k).
        cbn [length] in IH.
        assert (H10 : 10 ^ Z.of_nat (S (S k)) = 10 * 10 ^ Z.of_nat (S k)).
        { rewrite (Nat2Z.inj_succ (S k)), Z.pow_succ_r by lia. reflexivity. }
        rewrite H10 in Hv.
        assert (0 <= v / 10 < 10 ^ Z.of_nat (S k)).
        { split; [apply Z.div_pos; lia|].
          apply Z.div_lt_upper_bound; lia. }
        specialize (IH H). clear - IH.
        rewrite Nat.add_succ_r. rewrite Nat.add_succ_l in IH. exact IH.
Qed.

Lemma fmt_lu_length v k :
  0 <= v < 10 ^ Z.of_nat (S k) -> (length (fmt_lu v) <= S k)%nat.
Proof.
  intros H. unfold fmt_lu.
  exact (dec_digits_length (S (Z.to_nat (Z.log2 v))) v [] k H).
Qed.

Lemma fmt_lld_length v k :
  - 10 ^ Z.of_nat (S k) < v < 10 ^ Z.of_nat (S k) ->
  (length (fmt_lld v) <= S (S k))%nat.
Proof.
  intros H. unfold fmt_lld. destruct (v <? 0) eqn:E.
  - apply Z.ltb_lt in E. simpl length.
    pose proof (fmt_lu_length (- v) k). lia.
  - apply Z.ltb_ge in E. pose proof (fmt_lu_length v k). lia.
Qed.

(** For a 32-bit sequence number and the milliseconds of a 64-bit
    microsecond clock the message has at most 48 bytes. *)
Lemma format_msg_length seq now :
  0 <= seq < 2 ^ 32 ->
  INT64_MIN <= now <= INT64_MAX ->
  (length (format_msg seq (Z.quot now 1000)) <= 48)%nat.
Proof.
  intros Hseq Hnow. unfold format_msg.
  rewrite !length_app. simpl length.
  assert (L1 : (length (fmt_lu seq) <= 10)%nat).
  { apply (fmt_lu_length seq 9). simpl. lia. }
  assert (L2 : (length (fmt_lld (Z.quot now 1000)) <= 17)%nat).
  { apply (fmt_lld_length _ 15). unfold INT64_MIN, INT64_MAX in Hnow.
    simpl Z.pow in *.
    pose proof (Z.quot_rem' now 1000) as Hq.
    pose proof (Z.rem_bound_abs now 1000) as Hr.
    lia. }
  lia.
Qed.

Lemma wrap32_range v : 0 <= wrap32 v < 2 ^ 32.
Proof. unfold wrap32. apply Z.mod_pos_bound. lia. Qed.

(** ** [append_encrypted_record] around its call of the codec *)

Lemma append_encrypted_record_eq w :
  let w1 := set_log_seq (wrap32 (s_log_seq w + 1)) w in
  let text := format_msg (s_log_seq w1) (Z.quot (uptime_us (plat w)) 1000) in
  let msg := fill (uninit PLAINTEXT_MAX)
                  (firstn (Z.to_nat (PLAINTEXT_MAX - 1)) text ++ [0]) in
  append_encrypted_record w
  = if snprintf_ok (plat w)
    then match encrypt_record msg (Z.of_nat (length text))
                 (uninit (AES_IV_BYTES + PLAINTEXT_MAX))
                 (AES_IV_BYTES + PLAINTEXT_MAX) w1 with
         | Done (ok, record) w2 =>
             if ok
             then if fopen_ok (plat w2)
                  then Done tt (push_log (LogLine ESP_LOG_INFO "encrypted: %s")
                                  (stored record (AES_IV_BYTES + PLAINTEXT_MAX) w2))
                  else Done tt (push_log
                                  (LogLine ESP_LOG_ERROR
                                     "failed to open log file for append") w2)
             else Done tt (push_log
                             (LogLine ESP_LOG_ERROR "encrypt_record failed") w2)
         | Undefined => Undefined
         | Timeout => Timeout
         end
    else Done tt (push_log (LogLine ESP_LOG_ERROR "snprintf failed") w1).
Proof.
  intros w1 text msg.
  unfold append_encrypted_record.
  rewrite bind_eq. unfold gets at 1. cbv beta iota.
  rewrite bind_eq. unfold modify at 1. cbv beta iota. fold w1.
  rewrite bind_eq. unfold gets at 1. cbv beta iota.
  rewrite bind_eq. unfold snprintf at 1.
  change (plat w1) with (plat w).
  destruct (snprintf_ok (plat w)); cbv beta iota.
  - fold text. fold msg.
    replace (Z.of_nat (length text) <? 0) with false
      by (symmetry; apply Z.ltb_ge; lia).
    cbv beta iota. rewrite bind_eq.
    destruct (encrypt_record _ _ _ _ w1) as [[[|] record] w2| |];
      branch; try reflexivity.
    rewrite bind_eq. unfold fopen_ab at 1.
    destruct (fopen_ok (plat w2)); branch; [|reflexivity].
    unfold bind, fwrite, fclose, ret, ESP_LOGI, modify, stored.
    destruct w2; reflexivity.
  - reflexivity.
Qed.

(** ** The hex dump *)

Lemma hex_dump_loop_chunks content : forall w,
  exists chunks,
    hex_dump_loop content w = push_logs (map (LogHex ESP_LOG_INFO) chunks) w
    /\ concat chunks = content
    /\ Forall (fun c => (0 < length c <= HEX_CHUNK)%nat) chunks.
Proof.
  induction content as [content IH] using (induction_ltof1 _ (@length Z)).
  unfold ltof in IH. intros w.
  destruct content as [|b tl].
  - exists []. rewrite hex_dump_loop_equation_1, push_logs_nil.
    repeat split; constructor.
  - rewrite hex_dump_loop_equation_2.
    destruct (IH (skipn HEX_CHUNK (b :: tl))
                 ltac:(rewrite length_skipn; unfold HEX_CHUNK; simpl; lia)
                 (push_log (LogHex ESP_LOG_INFO (firstn HEX_CHUNK (b :: tl))) w))
      as (chunks & Hrun & Hcat & Hall).
    exists (firstn HEX_CHUNK (b :: tl) :: chunks).
    rewrite Hrun, push_log_one, push_logs_app.
    repeat split.
    + cbn [concat]. rewrite Hcat. apply firstn_skipn.
    + constructor; [|exact Hall].
      rewrite length_firstn. unfold HEX_CHUNK. simpl length. lia.
Qed.

(** * The claims *)

(** C1 (as amended). [encrypt_record] has no guard on the plaintext
    length. Called with [pt_len] above 64 it rejects without copying or
    encrypting only when [record_len] is below 80 or the generation of the
    IV fails; otherwise, the IV obtained, it copies [pt_len] bytes into its
    64-byte buffer, which is outside that buffer. *)
Theorem encrypt_record_no_plaintext_guard plaintext pt_len record record_len w :
  PLAINTEXT_MAX < pt_len ->
  encrypt_record plaintext pt_len record record_len w
  = if record_len <? AES_IV_BYTES + PLAINTEXT_MAX
    then Done (false, record) w
    else
      let rq := optiga_crypt_random AES_IV_BYTES in
      if negb (in_time (se_answer w rq)) then Timeout
      else if negb (completes_ok (se_answer w rq))
      then Done (false, record)
                (push_logs [LogLine ESP_LOG_ERROR "IV generation failed"]
                           (se_after rq w))
      else Undefined.
Proof.
  intros Hlong. unfold encrypt_record.
  destruct (record_len <? AES_IV_BYTES + PLAINTEXT_MAX); [reflexivity|].
  rewrite bind_eq, optiga_rng_fill_run. cbv zeta.
  destruct (in_time _); branch; [|reflexivity].
  destruct (completes_ok _); branch.
  - rewrite bind_eq, memcpy_overflow; [reflexivity|].
    rewrite length_memset, length_uninit. unfold PLAINTEXT_MAX in *. lia.
  - norm_logs. reflexivity.
Qed.

(** C2. For a plaintext of at most 64 bytes, on an element that answers
    in time, [encrypt_record] returns; it returns either false with the
    record buffer untouched, or true with a record whose first 80 bytes are
    the IV the element generated in this call followed by the 64 bytes of
    ciphertext the element returned for the zero-padded plaintext under
    that IV. *)
Theorem encrypt_record_fixed_size plaintext pt_len record record_len w :
  responsive ->
  0 <= pt_len <= PLAINTEXT_MAX ->
  pt_len <= Z.of_nat (length plaintext) ->
  record_len <= Z.of_nat (length record) ->
  exists ok record' w',
    encrypt_record plaintext pt_len record record_len w = Done (ok, record') w'
    /\ ((ok = false /\ record' = record)
        \/ (ok = true
            /\ exists a1 a2,
                 let iv := fill (uninit AES_IV_BYTES) (resp_out a1) in
                 let ct := resp_out a2 in
                 se_trace w'
                 = se_trace w
                     ++ [(optiga_crypt_random AES_IV_BYTES, a1);
                         (optiga_crypt_symmetric_encrypt
                            (zero_padded plaintext pt_len) iv, a2)]
                 /\ length iv = 16%nat
                 /\ length ct = 64%nat
                 /\ (length (resp_out a1) = 16%nat -> iv = resp_out a1)
                 /\ firstn RECORD_BYTES record' = iv ++ ct
                 /\ length (firstn RECORD_BYTES record') = 80%nat
                 /\ skipn RECORD_BYTES record' = skipn RECORD_BYTES record)).
Proof.
  intros Hresp Hpt Hsrc Hrec.
  destruct (Z.ltb_spec record_len (AES_IV_BYTES + PLAINTEXT_MAX)) as [Hs|Hs].
  { exists false, record, w. split; [|left; auto].
    unfold encrypt_record.
    replace (record_len <? _) with true by (symmetry; apply Z.ltb_lt; lia).
    reflexivity. }
  rewrite encrypt_record_run by lia. cbv zeta.
  set (rq1 := optiga_crypt_random AES_IV_BYTES).
  set (a1 := se_answer w rq1). set (w1 := se_after rq1 w).
  set (iv := fill (uninit AES_IV_BYTES) (resp_out a1)).
  set (rq2 := optiga_crypt_symmetric_encrypt (zero_padded plaintext pt_len) iv).
  set (a2 := se_answer w1 rq2). set (w2 := se_after rq2 w1).
  assert (T1 : in_time a1 = true) by apply Hresp.
  assert (T2 : in_time a2 = true) by apply Hresp.
  rewrite T1, T2. branch.
  destruct (completes_ok a1); branch; [|eauto 8].
  destruct (is_success (resp_ret a2)); branch; [|eauto 8].
  destruct (completes_ok a2); branch; [|eauto 8].
  destruct (Z.of_nat (length (resp_out a2)) =? PLAINTEXT_MAX) eqn:Hct;
    branch; [|eauto 8].
  apply Z.eqb_eq in Hct. unfold PLAINTEXT_MAX in Hct.
  assert (Hiv : length iv = 16%nat)
    by (unfold iv; rewrite length_fill, length_uninit; reflexivity).
  eexists true, _, w2. split; [reflexivity|]. right. split; [reflexivity|].
  exists a1, a2. cbv zeta. fold iv.
  change RECORD_BYTES with 80%nat.
  assert (Hpre : firstn 80 (iv ++ resp_out a2 ++ skipn 80 record)
                 = iv ++ resp_out a2).
  { rewrite app_assoc, firstn_app, firstn_all2 by (rewrite length_app; lia).
    rewrite length_app.
    replace (80 - (length iv + length (resp_out a2)))%nat with 0%nat by lia.
    rewrite firstn_0. apply app_nil_r. }
  repeat split.
  - unfold w2, w1, se_after; simpl. rewrite <- app_assoc. reflexivity.
  - exact Hiv.
  - lia.
  - intros H16. apply fill_exact. rewrite length_uninit. exact H16.
  - exact Hpre.
  - rewrite Hpre, length_app. lia.
  - rewrite app_assoc, skipn_app, skipn_all2 by (rewrite length_app; lia).
    rewrite length_app.
    replace (80 - (length iv + length (resp_out a2)))%nat with 0%nat by lia.
    reflexivity.
Qed.

(** C3 (as amended). Under the non-destructive policy, on an element
    that answers in time: when the metadata read of slot 0xE200 succeeds
    with a blob that is not empty, provisioning submits no write-metadata
    and no generate-key request and reports success; when the read fails
    or the blob is empty, it submits exactly one write-metadata request,
    followed by exactly one generate-key request if that write completes
    with success, and by none, reporting failure, if it does not. *)
Theorem provisioning_non_destructive w :
  responsive ->
  let rd := optiga_util_read_metadata OID_E200 64 in
  let wr := optiga_util_write_metadata OID_E200 e200_metadata in
  let a := se_answer w rd in
  let aw := se_answer (se_after rd w) wr in
  exists ok w' ops,
    optiga_generate_key_if_enabled 0 w = Done ok w'
    /\ se_trace w' = se_trace w ++ (rd, a) :: ops
    /\ (metadata_present a = true ->
        ok = true
        /\ count_write_metadata ops = 0%nat
        /\ count_generate_key ops = 0%nat)
    /\ (metadata_present a = false ->
        count_write_metadata ops = 1%nat
        /\ count_generate_key ops = (if completes_ok aw then 1 else 0)%nat
        /\ (completes_ok aw = false -> ok = false)).
Proof.
  intros Hresp rd wr a aw.
  unfold optiga_generate_key_if_enabled.
  change (negb (0 =? 0)) with false. cbv iota.
  rewrite bind_eq, bind_eq, optiga_key_ready_run. cbv zeta. fold rd a.
  replace (in_time a) with true by (symmetry; apply Hresp).
  destruct (metadata_present a) eqn:Hmd.
  - norm_logs.
    eexists true, _, []. split; [reflexivity|].
    split; [reflexivity|]. split; [auto|discriminate].
  - rewrite push_logs_nil. unfold ESP_LOGI at 1.
    rewrite bind_eq. unfold modify at 1. cbv beta iota.
    rewrite bind_eq, optiga_write_e200_metadata_run. cbv zeta.
    rewrite se_after_push_log, !se_answer_push_log. fold wr aw.
    replace (in_time aw) with true by (symmetry; apply Hresp).
    destruct (completes_ok aw) eqn:Hw; branch; unfold ret; cbv beta iota.
    + rewrite optiga_generate_key_run. cbv zeta.
      set (w2 := push_logs _ _).
      set (ag := se_answer w2 optiga_crypt_symmetric_generate_key).
      replace (in_time ag) with true by (symmetry; apply Hresp).
      eexists (completes_ok ag), _,
        [(wr, aw); (optiga_crypt_symmetric_generate_key, ag)].
      split; [reflexivity|]. split.
      * unfold w2; simpl. rewrite <- !app_assoc. reflexivity.
      * split; [discriminate|]. intros _. split; [reflexivity|].
        split; [reflexivity|discriminate].
    + eexists false, _, [(wr, aw)].
      split; [reflexivity|]. split.
      * simpl. rewrite <- !app_assoc. reflexivity.
      * split; [discriminate|]. intros _. split; [reflexivity|].
        split; [reflexivity|reflexivity].
Qed.

(** C4 (as amended). [print_log_file_hex] treats every file alike,
    whatever its length: it renders the whole content, in order, in chunks
    of 1 to 32 bytes, each at info level after one info header line, and
    changes nothing else. No line reports a length that is not a multiple
    of 80. *)
Theorem print_log_file_hex_renders_all w content :
  fopen_ok (plat w) = true ->
  log_file w = Some content ->
  exists chunks,
    print_log_file_hex w
    = Done tt (push_logs (LogLine ESP_LOG_INFO "raw file content (hex):"
                            :: map (LogHex ESP_LOG_INFO) chunks) w)
    /\ concat chunks = content
    /\ Forall (fun c => (0 < length c <= HEX_CHUNK)%nat) chunks
    /\ forallb is_info_line
         (LogLine ESP_LOG_INFO "raw file content (hex):"
            :: map (LogHex ESP_LOG_INFO) chunks) = true.
Proof.
  intros Hopen Hfile.
  destruct (hex_dump_loop_chunks content
              (push_log (LogLine ESP_LOG_INFO "raw file content (hex):") w))
    as (chunks & Hrun & Hcat & Hall).
  exists chunks. repeat split; try assumption.
  - unfold print_log_file_hex.
    rewrite bind_eq. unfold fopen_rb. rewrite Hopen, Hfile.
    unfold ESP_LOGI, fclose, bind, modify, ret.
    rewrite Hrun, push_log_one, push_logs_app. reflexivity.
  - cbn [forallb is_info_line line_level andb].
    clear. induction chunks as [|c chunks IH]; [reflexivity | exact IH].
Qed.

(** C6. When encoding fails, at the construction of the message or in
    [encrypt_record] (generation of the IV, submission or completion of
    the encryption, length of the ciphertext), [append_encrypted_record]
    returns with the log file exactly as it was. *)
Theorem append_encoding_failure_keeps_file w :
  let w1 := set_log_seq (wrap32 (s_log_seq w + 1)) w in
  let text := format_msg (s_log_seq w1) (Z.quot (uptime_us (plat w)) 1000) in
  let msg := fill (uninit PLAINTEXT_MAX)
                  (firstn (Z.to_nat (PLAINTEXT_MAX - 1)) text ++ [0]) in
  (snprintf_ok (plat w) = false
   \/ exists record w2,
        encrypt_record msg (Z.of_nat (length text))
                       (uninit (AES_IV_BYTES + PLAINTEXT_MAX))
                       (AES_IV_BYTES + PLAINTEXT_MAX) w1
        = Done (false, record) w2) ->
  exists w',
    append_encrypted_record w = Done tt w'
    /\ log_file w' = log_file w
    /\ exists l, esp_log w' = l ++ [LogLine ESP_LOG_ERROR
                                      (if snprintf_ok (plat w)
                                       then "encrypt_record failed"
                                       else "snprintf failed")].
Proof.
  intros w1 text msg Hfail.
  rewrite append_encrypted_record_eq. cbv zeta. fold w1 text msg.
  destruct (snprintf_ok (plat w)).
  - destruct Hfail as [Hfail|(record & w2 & Henc)]; [discriminate|].
    rewrite Henc.
    destruct (keeps_store_encrypt_record _ _ _ _ _ _ _ Henc) as (_ & _ & Hf).
    eexists. split; [reflexivity|]. split; [exact Hf|].
    exists (esp_log w2). reflexivity.
  - eexists. split; [reflexivity|]. split; [reflexivity|].
    exists (esp_log w). reflexivity.
Qed.

(** C7 (as amended). [optiga_wait] only reads the shared status. In
    whatever state it is entered, it returns exactly in the cases of the
    equation below; and after every return the shared status is a
    completion status, success or an error code, never busy and never a
    separate idle value; the flag returned is true exactly for success; the
    state is the one the callback left, or the one the waiter was entered
    in when the status was settled already; and nothing has reset the
    status: a second wait finds it and returns the same. Entered after a
    submission that was accepted, the status it returns with is the one
    the element completed that request with. *)
Theorem optiga_wait_keeps_completion_status w :
  optiga_wait w
  = (if is_busy (s_optiga_status w)
     then match se_pending w with
          | Some (k, st) =>
              if (S k <? polls)%nat && negb (is_busy st)
              then Done (is_success st)
                        (optiga_callback st (set_se_pending None w))
              else Timeout
          | None => Timeout
          end
     else match polls with
          | O => Timeout
          | S _ => Done (is_success (s_optiga_status w)) w
          end)
  /\ (forall ok w',
        optiga_wait w = Done ok w' ->
        ok = is_success (s_optiga_status w')
        /\ is_busy (s_optiga_status w') = false
        /\ op_state (s_optiga_status w') <> Idle
        /\ op_state (s_optiga_status w') <> Busy
        /\ (if is_busy (s_optiga_status w)
            then exists k st,
                   se_pending w = Some (k, st)
                   /\ (S k < polls)%nat
                   /\ s_optiga_status w' = st
                   /\ w' = optiga_callback st (set_se_pending None w)
            else w' = w)
        /\ optiga_wait w' = Done ok w')
  /\ (forall req r data w1 ok w',
        se_submit req (set_optiga_status OPTIGA_LIB_BUSY w)
        = Done (r, data) w1 ->
        is_success r = true ->
        optiga_wait w1 = Done ok w' ->
        exists k st,
          resp_done (se_answer w req) = Some (k, st)
          /\ s_optiga_status w' = st
          /\ ok = is_success st).
Proof.
  split; [apply optiga_wait_eq|]. split.
  - intros ok w' Hrun. rewrite optiga_wait_eq in Hrun.
    destruct (is_busy (s_optiga_status w)) eqn:Hb.
    + destruct (se_pending w) as [[k st]|] eqn:Hpd; [|discriminate].
      destruct (S k <? polls)%nat eqn:Hk; [|discriminate].
      destruct (is_busy st) eqn:Hst; [discriminate|].
      cbn [andb negb] in Hrun.
      assert (Hok : ok = is_success st) by congruence.
      assert (Hw : w' = optiga_callback st (set_se_pending None w))
        by congruence.
      assert (Hs : s_optiga_status w' = st) by (rewrite Hw; reflexivity).
      rewrite Hs.
      split; [exact Hok|]. split; [exact Hst|].
      split; [destruct st; discriminate|].
      split; [destruct st; simpl in *; discriminate|].
      split.
      * exists k, st. split; [reflexivity|].
        split; [apply Nat.ltb_lt; exact Hk|]. split; [reflexivity | exact Hw].
      * rewrite optiga_wait_eq, Hs, Hst.
        destruct polls; [discriminate|]. rewrite Hok. reflexivity.
    + destruct polls as [|n] eqn:Hp; [discriminate|].
      assert (Hok : ok = is_success (s_optiga_status w)) by congruence.
      assert (Hw : w' = w) by congruence.
      subst w'.
      split; [exact Hok|]. split; [exact Hb|].
      split; [destruct (s_optiga_status w); discriminate|].
      split; [destruct (s_optiga_status w); simpl in *; discriminate|].
      split; [reflexivity|].
      rewrite optiga_wait_eq, Hb, Hp, Hok. reflexivity.
  - intros req r data w1 ok w' Hsub Hr Hrun.
    unfold se_submit, se_answer in *.
    cbn [se_state set_optiga_status] in Hsub.
    destruct (se_exec (se_state w) req) as [a d'] eqn:Ha.
    cbn [fst].
    assert (Hra : r = resp_ret a) by congruence.
    rewrite Hra in Hr. rewrite Hr in Hsub.
    rewrite optiga_wait_eq in Hrun.
    destruct (resp_done a) as [[[|k] st]|].
    + assert (Hw1 : s_optiga_status w1 = st /\ se_pending w1 = None).
      { split; inversion Hsub; reflexivity. }
      destruct Hw1 as (Hs1 & Hp1). rewrite Hs1, Hp1 in Hrun.
      destruct (is_busy st); [discriminate|].
      destruct polls; [discriminate|].
      exists O, st. split; [reflexivity|].
      split; [|congruence].
      assert (Hw : w' = w1) by congruence. rewrite Hw. exact Hs1.
    + assert (Hw1 : s_optiga_status w1 = OPTIGA_LIB_BUSY
                    /\ se_pending w1 = Some (k, st)).
      { split; inversion Hsub; reflexivity. }
      destruct Hw1 as (Hs1 & Hp1). rewrite Hs1, Hp1 in Hrun.
      cbn [is_busy] in Hrun.
      destruct ((S k <? polls)%nat && negb (is_busy st)); [|discriminate].
      exists (S k), st. split; [reflexivity|].
      split; [|congruence].
      assert (Hw : w' = optiga_callback st (set_se_pending None w1))
        by congruence.
      rewrite Hw. reflexivity.
    + assert (Hw1 : s_optiga_status w1 = OPTIGA_LIB_BUSY
                    /\ se_pending w1 = None).
      { split; inversion Hsub; reflexivity. }
      destruct Hw1 as (Hs1 & Hp1). rewrite Hs1, Hp1 in Hrun.
      discriminate.
Qed.

(** ** The call site of the codec *)

(** What [snprintf] leaves in the 64-byte buffer for a text below 64
    bytes starts with the whole text. *)
Lemma msg_holds_text text :
  (length text < 64)%nat ->
  let msg := fill (uninit PLAINTEXT_MAX)
                  (firstn (Z.to_nat (PLAINTEXT_MAX - 1)) text ++ [0]) in
  length msg = 64%nat /\ firstn (length text) msg = text.
Proof.
  intros Hlen msg. split.
  - unfold msg. rewrite length_fill, length_uninit. reflexivity.
  - unfold msg, fill. rewrite length_uninit.
    change (Z.to_nat (PLAINTEXT_MAX - 1)) with 63%nat.
    change (Z.to_nat PLAINTEXT_MAX) with 64%nat.
    rewrite (firstn_all2 text) by lia.
    rewrite (firstn_all2 (n := 64)) by (rewrite length_app; simpl; lia).
    rewrite <- app_assoc, firstn_app, firstn_all, Nat.sub_diag, firstn_0.
    apply app_nil_r.
Qed.

Lemma responsive_in_time :
  responsive -> forall w req, in_time (se_answer w req) = true.
Proof. intros H w req. apply H. Qed.

(** On an element that answers in time the codec returns when its
    buffers have the stated sizes. *)
Lemma encrypt_record_returns plaintext pt_len record w :
  responsive ->
  0 <= pt_len <= PLAINTEXT_MAX ->
  pt_len <= Z.of_nat (length plaintext) ->
  AES_IV_BYTES + PLAINTEXT_MAX <= Z.of_nat (length record) ->
  exists ok record' w',
    encrypt_record plaintext pt_len record (AES_IV_BYTES + PLAINTEXT_MAX) w
    = Done (ok, record') w'.
Proof.
  intros Hresp Hpt Hsrc Hrec.
  rewrite encrypt_record_run by lia. cbv zeta.
  rewrite !(responsive_in_time Hresp). branch.
  repeat match goal with
         | |- context [if ?b then _ else _] => destruct b
         end; eauto.
Qed.

(** With buffers of the stated sizes the codec never leaves them. *)
Lemma encrypt_record_defined plaintext pt_len record w :
  0 <= pt_len <= PLAINTEXT_MAX ->
  pt_len <= Z.of_nat (length plaintext) ->
  AES_IV_BYTES + PLAINTEXT_MAX <= Z.of_nat (length record) ->
  encrypt_record plaintext pt_len record (AES_IV_BYTES + PLAINTEXT_MAX) w
  <> Undefined.
Proof.
  intros Hpt Hsrc Hrec.
  rewrite encrypt_record_run by lia. cbv zeta.
  repeat match goal with
         | |- context [if ?b then _ else _] => destruct b
         end; discriminate.
Qed.

(** C8. At the only call site of [encrypt_record], whenever [snprintf]
    succeeds the value it returns is at most 63 (at most 48 in fact), the
    64-byte buffer holds the whole message, and the copy of [written] bytes
    into the zeroed 64-byte buffer of [encrypt_record] is inside both
    buffers; no run of [append_encrypted_record] leaves a buffer, although
    [encrypt_record] does not check the plaintext length itself. *)
Theorem append_message_fits w :
  INT64_MIN <= uptime_us (plat w) <= INT64_MAX ->
  let w1 := set_log_seq (wrap32 (s_log_seq w + 1)) w in
  let text := format_msg (s_log_seq w1) (Z.quot (uptime_us (plat w)) 1000) in
  (forall written msg w2,
     snprintf (uninit PLAINTEXT_MAX) PLAINTEXT_MAX text w1
     = Done (written, msg) w2 ->
     0 <= written ->
     written <= 48
     /\ written <= PLAINTEXT_MAX - 1
     /\ firstn (Z.to_nat written) msg = text
     /\ forall w3,
          memcpy (memset (uninit PLAINTEXT_MAX) 0) 0 msg written w3
          = Done (text ++ repeat 0 (Z.to_nat (PLAINTEXT_MAX - written))) w3)
  /\ append_encrypted_record w <> Undefined.
Proof.
  intros Hnow w1 text.
  assert (Hlen : (length text <= 48)%nat).
  { apply format_msg_length; [apply wrap32_range | exact Hnow]. }
  destruct (msg_holds_text text ltac:(lia)) as [Hmsg Htext].
  split.
  - clearbody text. intros written msg w2 Hsn Hpos. unfold snprintf in Hsn.
    destruct (snprintf_ok (plat w1)).
    2:{ assert (written = -1) by congruence. lia. }
    assert (Hw : written = Z.of_nat (length text)) by congruence.
    assert (Hm : msg = fill (uninit PLAINTEXT_MAX)
                         (firstn (Z.to_nat (PLAINTEXT_MAX - 1)) text ++ [0]))
      by congruence.
    subst written msg. clear Hsn.
    rewrite Nat2Z.id.
    split; [lia|]. split; [unfold PLAINTEXT_MAX; lia|].
    split; [exact Htext|].
    intros w3. rewrite pt_buf_zero_padded.
    + unfold zero_padded. rewrite Nat2Z.id, Htext. reflexivity.
    + unfold PLAINTEXT_MAX. lia.
    + rewrite Hmsg. lia.
  - rewrite append_encrypted_record_eq. cbv zeta. fold w1 text.
    destruct (snprintf_ok (plat w)); [|discriminate].
    pose proof (encrypt_record_defined
                  (fill (uninit PLAINTEXT_MAX)
                        (firstn (Z.to_nat (PLAINTEXT_MAX - 1)) text ++ [0]))
                  (Z.of_nat (length text))
                  (uninit (AES_IV_BYTES + PLAINTEXT_MAX)) w1) as Hdef.
    destruct (encrypt_record _ _ _ _ w1) as [[ok record] w2| |].
    + destruct ok; [destruct (fopen_ok (plat w2))|]; discriminate.
    + exfalso. apply Hdef; [unfold PLAINTEXT_MAX; lia | rewrite Hmsg; lia | | ].
      * rewrite length_uninit. reflexivity.
      * reflexivity.
    + discriminate.
Qed.

(** C9. On an element that answers in time every invocation of
    [append_encrypted_record] returns with [s_log_seq] one higher, in
    32-bit arithmetic, whether or not a record was stored; when the
    message cannot be built or the file cannot be opened the log file is
    as before, so that sequence number is in no stored record. *)
Theorem append_increments_seq w :
  responsive ->
  INT64_MIN <= uptime_us (plat w) <= INT64_MAX ->
  exists w',
    append_encrypted_record w = Done tt w'
    /\ s_log_seq w' = wrap32 (s_log_seq w + 1)
    /\ (s_log_seq w < 2 ^ 32 - 1 -> 0 <= s_log_seq w ->
        s_log_seq w' = s_log_seq w + 1)
    /\ (snprintf_ok (plat w) = false \/ fopen_ok (plat w) = false ->
        log_file w' = log_file w).
Proof.
  intros Hresp Hnow.
  assert (Hwrap : s_log_seq w < 2 ^ 32 - 1 -> 0 <= s_log_seq w ->
                  wrap32 (s_log_seq w + 1) = s_log_seq w + 1).
  { intros. unfold wrap32. apply Z.mod_small. lia. }
  rewrite append_encrypted_record_eq. cbv zeta.
  set (w1 := set_log_seq (wrap32 (s_log_seq w + 1)) w).
  set (text := format_msg (s_log_seq w1) (Z.quot (uptime_us (plat w)) 1000)).
  assert (Hlen : (length text <= 48)%nat).
  { apply format_msg_length; [apply wrap32_range | exact Hnow]. }
  destruct (msg_holds_text text ltac:(lia)) as [Hmsg _].
  destruct (snprintf_ok (plat w)) eqn:Hsn.
  - destruct (encrypt_record_returns
                (fill (uninit PLAINTEXT_MAX)
                      (firstn (Z.to_nat (PLAINTEXT_MAX - 1)) text ++ [0]))
                (Z.of_nat (length text))
                (uninit (AES_IV_BYTES + PLAINTEXT_MAX)) w1 Hresp)
      as (ok & record & w2 & Henc).
    + unfold PLAINTEXT_MAX. lia.
    + rewrite Hmsg. lia.
    + rewrite length_uninit. reflexivity.
    + rewrite Henc.
      destruct (keeps_store_encrypt_record _ _ _ _ _ _ _ Henc)
        as (Hseq & Hplat & Hfile).
      destruct ok.
      * rewrite Hplat. change (plat w1) with (plat w).
        destruct (fopen_ok (plat w)) eqn:Hop.
        -- eexists. split; [reflexivity|].
           split; [exact Hseq|]. split; [intros; simpl; rewrite Hseq; auto|].
           intros [H|H]; discriminate.
        -- eexists. split; [reflexivity|].
           split; [exact Hseq|]. split; [intros; simpl; rewrite Hseq; auto|].
           intros _. exact Hfile.
      * eexists. split; [reflexivity|].
        split; [exact Hseq|]. split; [intros; simpl; rewrite Hseq; auto|].
        intros _. exact Hfile.
  - eexists. split; [reflexivity|].
    split; [reflexivity|]. split; [intros; simpl; auto|].
    intros _. reflexivity.
Qed.

(** C10. Called with an output buffer of fewer than 80 bytes,
    [encrypt_record] returns false at once: the buffer and the whole state
    are as before, so no request, for random numbers or for encryption,
    has been submitted to the secure element. *)
Theorem encrypt_record_short_output_buffer plaintext pt_len record record_len w :
  record_len < AES_IV_BYTES + PLAINTEXT_MAX ->
  encrypt_record plaintext pt_len record record_len w = Done (false, record) w
  /\ forall ok record' w',
       encrypt_record plaintext pt_len record record_len w
       = Done (ok, record') w' ->
       se_trace w' = se_trace w.
Proof.
  intros Hshort.
  assert (E : encrypt_record plaintext pt_len record record_len w
              = Done (false, record) w).
  { unfold encrypt_record.
    replace (record_len <? AES_IV_BYTES + PLAINTEXT_MAX) with true
      by (symmetry; apply Z.ltb_lt; exact Hshort).
    reflexivity. }
  split; [exact E|].
  intros ok record' w' H. rewrite E in H. inversion H. reflexivity.
Qed.

(** * Further properties of main.c *)

(** ** The hex dump, line by line *)

Lemma hex_lines_cons b tl :
  hex_lines (b :: tl)
  = LogHex ESP_LOG_INFO (firstn HEX_CHUNK (b :: tl))
      :: hex_lines (skipn HEX_CHUNK (b :: tl)).
Proof.
  unfold hex_lines. rewrite length_skipn.
  change HEX_CHUNK with 32%nat. change (32 - 1)%nat with 31%nat.
  set (l := b :: tl). assert (Hl : (1 <= length l)%nat) by (simpl; lia).
  clearbody l.
  assert (Hn : ((length l + 31) / 32
                = S ((length l - 32 + 31) / 32))%nat).
  { destruct (Nat.le_gt_cases (length l) 32) as [Hs|Hs].
    - replace (length l - 32)%nat with 0%nat by lia.
      change ((0 + 31) / 32)%nat with 0%nat.
      symmetry. apply Nat.div_unique with (r := (length l - 1)%nat); lia.
    - replace (length l + 31)%nat
        with (length l - 32 + 31 + 1 * 32)%nat by lia.
      rewrite Nat.div_add by discriminate. lia. }
  rewrite Hn. cbn [seq map]. f_equal.
  rewrite <- seq_shift, map_map. apply map_ext. intros k.
  rewrite skipn_skipn. do 3 f_equal. lia.
Qed.

Lemma hex_dump_loop_lines content : forall w,
  hex_dump_loop content w = push_logs (hex_lines content) w.
Proof.
  induction content as [content IH] using (induction_ltof1 _ (@length Z)).
  unfold ltof in IH. intros w.
  destruct content as [|b tl].
  - rewrite hex_dump_loop_equation_1. symmetry. apply push_logs_nil.
  - rewrite hex_dump_loop_equation_2, IH, push_log_one, push_logs_app.
    + rewrite hex_lines_cons. reflexivity.
    + rewrite length_skipn. unfold HEX_CHUNK. simpl. lia.
Qed.

Lemma hex_lines_info content : forallb is_info_line (hex_lines content) = true.
Proof.
  unfold hex_lines. induction (seq 0 _) as [|k ks IH]; [reflexivity | exact IH].
Qed.

Lemma print_log_file_hex_run w :
  print_log_file_hex w
  = Done tt
      (push_logs
         (match (if fopen_ok (plat w) then log_file w else None) with
          | Some c => LogLine ESP_LOG_INFO "raw file content (hex):"
                        :: hex_lines c
          | None => [LogLine ESP_LOG_INFO "no existing log file found."]
          end) w).
Proof.
  unfold print_log_file_hex. rewrite bind_eq. unfold fopen_rb.
  destruct (fopen_ok (plat w)); [destruct (log_file w) as [c|]|];
    try reflexivity.
  unfold ESP_LOGI, fclose, bind, modify, ret.
  rewrite hex_dump_loop_lines, push_log_one, push_logs_app. reflexivity.
Qed.

(** X1. [print_log_file_hex] only writes to the ESP log and never
    reports an error: every line it adds is at info level, and a file that
    is absent or cannot be opened gives the single line that no log file
    was found. *)
Theorem print_log_file_hex_only_logs w :
  exists lines,
    print_log_file_hex w = Done tt (push_logs lines w)
    /\ forallb is_info_line lines = true
    /\ (if fopen_ok (plat w)
        then match log_file w with
             | Some _ => True
             | None => lines = [LogLine ESP_LOG_INFO
                                        "no existing log file found."]
             end
        else lines = [LogLine ESP_LOG_INFO "no existing log file found."]).
Proof.
  eexists. split; [apply print_log_file_hex_run|].
  destruct (fopen_ok (plat w)); [destruct (log_file w) as [c|]|];
    repeat split; try reflexivity.
  cbn [forallb is_info_line line_level andb]. apply hex_lines_info.
Qed.

(** X2. The dump of a file of [n] bytes has one header and
    [ceil (n / 32)] hex lines, and line [k] renders the bytes from offset
    [32 k] up to [32 k + 32], fewer only at the end of the file. *)
Theorem print_log_file_hex_layout w c :
  fopen_ok (plat w) = true ->
  log_file w = Some c ->
  exists lines,
    print_log_file_hex w
    = Done tt (push_logs (LogLine ESP_LOG_INFO "raw file content (hex):"
                            :: lines) w)
    /\ length lines = ((length c + 31) / 32)%nat
    /\ forall k,
         (32 * k < length c)%nat ->
         nth_error lines k
         = Some (LogHex ESP_LOG_INFO (firstn 32 (skipn (32 * k) c))).
Proof.
  intros Hopen Hfile. exists (hex_lines c).
  split; [|split].
  - rewrite print_log_file_hex_run, Hopen, Hfile. reflexivity.
  - unfold hex_lines. rewrite length_map, length_seq. reflexivity.
  - intros k Hk. unfold hex_lines.
    change HEX_CHUNK with 32%nat. change (32 - 1)%nat with 31%nat.
    assert (Hlt : (k < (length c + 31) / 32)%nat).
    { apply (Nat.div_le_lower_bound (length c + 31) 32 (S k)); lia. }
    rewrite nth_error_map, nth_error_seq.
    apply Nat.ltb_lt in Hlt. rewrite Hlt. reflexivity.
Qed.

(** ** The effect of one command *)

Lemma same_platform_refl w : same_platform w w.
Proof. repeat split. Qed.

Lemma same_platform_trans w1 w2 w3 :
  same_platform w1 w2 -> same_platform w2 w3 -> same_platform w1 w3.
Proof.
  intros (A1 & A2 & A3) (B1 & B2 & B3). repeat split; congruence.
Qed.

Lemma content_stored l data n w :
  content (push_log l (stored data n w))
  = content w ++ firstn (Nat.min (Z.to_nat n) (fs_free (plat w))) data.
Proof. reflexivity. Qed.

(** What an append does on an element that answers in time, whether or
    not it stores a record. *)
Lemma append_effect w :
  responsive ->
  INT64_MIN <= uptime_us (plat w) <= INT64_MAX ->
  exists w',
    append_encrypted_record w = Done tt w'
    /\ s_log_seq w' = wrap32 (s_log_seq w + 1)
    /\ same_platform w w'
    /\ (se_pending w = None -> se_pending w' = None)
    /\ exists suffix,
         content w' = content w ++ suffix /\ (length suffix <= 80)%nat.
Proof.
  intros Hresp Hnow.
  rewrite append_encrypted_record_eq. cbv zeta.
  set (w1 := set_log_seq (wrap32 (s_log_seq w + 1)) w).
  set (text := format_msg (s_log_seq w1) (Z.quot (uptime_us (plat w)) 1000)).
  assert (Hlen : (length text <= 48)%nat).
  { apply format_msg_length; [apply wrap32_range | exact Hnow]. }
  destruct (msg_holds_text text ltac:(lia)) as [Hmsg _].
  clearbody text.
  assert (Hnone : exists suffix : list Z,
             content w = content w ++ suffix /\ (length suffix <= 80)%nat).
  { exists []. rewrite app_nil_r. split; [reflexivity | simpl; lia]. }
  destruct (snprintf_ok (plat w)) eqn:Hsn.
  2:{ eexists. split; [reflexivity|]. repeat split; auto. }
  rewrite encrypt_record_run;
    [ | unfold AES_IV_BYTES, PLAINTEXT_MAX; lia
      | unfold PLAINTEXT_MAX; lia
      | rewrite Hmsg; lia
      | rewrite length_uninit; reflexivity ].
  cbv zeta. rewrite !(responsive_in_time Hresp). branch.
  repeat match goal with
         | |- context [if negb ?b then _ else _] => destruct b; branch
         end;
    try (eexists; split; [reflexivity|]; repeat split; auto; fail).
  change (plat (se_after _ (se_after _ w1))) with (plat w).
  destruct (fopen_ok (plat w)) eqn:Hop.
  - eexists. split; [reflexivity|]. repeat split; auto.
    rewrite content_stored.
    change (content (se_after _ (se_after _ w1))) with (content w).
    eexists. split; [reflexivity|].
    rewrite length_firstn.
    change (Z.to_nat (AES_IV_BYTES + PLAINTEXT_MAX)) with 80%nat. lia.
  - eexists. split; [reflexivity|]. repeat split; auto.
Qed.

Lemma clear_log_file_run w :
  clear_log_file w
  = if fopen_ok (plat w)
    then Done tt
           (push_logs [LogLine ESP_LOG_INFO "log cleared."]
              (set_storage
                 (mkPlatform (uptime_us (plat w)) (snprintf_ok (plat w))
                             (fopen_ok (plat w))
                             (fs_free (plat w) + length (content w)))
                 (Some []) w))
    else Done tt
           (push_logs [LogLine ESP_LOG_ERROR
                         "failed to open log file for clearing."] w).
Proof.
  unfold clear_log_file, fopen_wb, bind.
  destruct (fopen_ok (plat w)); reflexivity.
Qed.

Lemma print_usage_run w :
  print_usage w
  = Done tt
      (push_logs [LogLine ESP_LOG_INFO "Commands:";
                  LogLine ESP_LOG_INFO "  a - append encrypted record";
                  LogLine ESP_LOG_INFO "  c - clear log file";
                  LogLine ESP_LOG_INFO "  p - print raw file (hex)"] w).
Proof.
  unfold print_usage. norm_logs. reflexivity.
Qed.

(** What one command does, by the key. *)
Lemma command_step_effect ch w :
  responsive ->
  INT64_MIN <= uptime_us (plat w) <= INT64_MAX ->
  exists w',
    command_step ch w = Done tt w'
    /\ same_platform w w'
    /\ (se_pending w = None -> se_pending w' = None)
    /\ (is_append_key ch = true ->
        s_log_seq w' = wrap32 (s_log_seq w + 1))
    /\ (is_append_key ch = false ->
        s_log_seq w' = s_log_seq w /\ se_trace w' = se_trace w
        /\ se_state w' = se_state w
        /\ s_optiga_status w' = s_optiga_status w)
    /\ (is_append_key ch = false -> is_clear_key ch = true ->
        if fopen_ok (plat w)
        then log_file w' = Some []
             /\ esp_log w' = esp_log w ++ [LogLine ESP_LOG_INFO "log cleared."]
        else log_file w' = log_file w
             /\ esp_log w'
                = esp_log w ++ [LogLine ESP_LOG_ERROR
                                  "failed to open log file for clearing."])
    /\ (is_append_key ch = false -> is_clear_key ch = false ->
        log_file w' = log_file w /\ plat w' = plat w)
    /\ (is_append_key ch = true \/ is_clear_key ch = false ->
        exists suffix,
          content w' = content w ++ suffix /\ (length suffix <= 80)%nat).
Proof.
  intros Hresp Hnow.
  assert (Hnone : exists suffix : list Z,
             content w = content w ++ suffix /\ (length suffix <= 80)%nat).
  { exists []. rewrite app_nil_r. split; [reflexivity | simpl; lia]. }
  unfold command_step. fold (is_append_key ch). fold (is_clear_key ch).
  destruct (is_append_key ch) eqn:Ha.
  { destruct (append_effect w Hresp Hnow)
      as (w' & Hrun & Hseq & Hplat & Hpd & Hsuf).
    exists w'. split; [exact Hrun|].
    repeat split; try discriminate; try apply Hplat; auto. }
  destruct (is_clear_key ch) eqn:Hc.
  { rewrite clear_log_file_run.
    destruct (fopen_ok (plat w)) eqn:Hop;
      (eexists; split; [reflexivity|]);
      repeat split; try discriminate; auto.
    intros [H|H]; discriminate. }
  destruct ((ch =? chr "p"%char) || (ch =? chr "P"%char)).
  { rewrite print_log_file_hex_run.
    eexists. split; [reflexivity|].
    repeat split; try discriminate; auto. }
  destruct ((ch =? 13) || (ch =? 10)).
  { eexists. split; [reflexivity|].
    repeat split; try discriminate; auto. }
  rewrite bind_eq. unfold ESP_LOGW, modify. rewrite print_usage_run.
  eexists. split; [reflexivity|].
  repeat split; try discriminate; auto.
Qed.

(** ** Extras on the commands *)

Lemma clear_key_not_append ch : is_clear_key ch = true -> is_append_key ch = false.
Proof.
  unfold is_clear_key, is_append_key. intros H.
  apply orb_true_iff in H as [H|H]; [apply orb_true_iff in H as [H|H]|];
    apply Z.eqb_eq in H; subst ch; reflexivity.
Qed.

(** X3. [clear_log_file] always returns and touches neither the
    sequence counter nor the secure element. When the file opens it is
    left empty whatever it held, and a dump right after shows the header
    and no hex line; when it does not open, the file and the storage are as
    before and an error is logged. *)
Theorem clear_log_file_resets w :
  exists w',
    clear_log_file w = Done tt w'
    /\ s_log_seq w' = s_log_seq w
    /\ se_trace w' = se_trace w
    /\ if fopen_ok (plat w)
       then log_file w' = Some []
            /\ print_log_file_hex w'
               = Done tt (push_logs [LogLine ESP_LOG_INFO
                                       "raw file content (hex):"] w')
       else log_file w' = log_file w
            /\ plat w' = plat w
            /\ esp_log w'
               = esp_log w ++ [LogLine ESP_LOG_ERROR
                                 "failed to open log file for clearing."].
Proof.
  rewrite clear_log_file_run.
  destruct (fopen_ok (plat w)) eqn:Hop.
  - eexists. split; [reflexivity|].
    split; [reflexivity|]. split; [reflexivity|].
    split; [reflexivity|].
    rewrite print_log_file_hex_run. reflexivity.
  - eexists. split; [reflexivity|]. repeat split.
Qed.

(** X4. The log store is append-only except for the clear keys: on an
    element that answers in time every command returns, and unless the key
    is one of c, C, 2 the content of the log file afterwards is the content
    before followed by at most 80 bytes. A clear key leaves the file empty,
    whatever it held, when it can be opened, and says so; when it cannot be
    opened the file is as it was and the failure is logged as an error. *)
Theorem command_step_append_only ch w :
  responsive ->
  INT64_MIN <= uptime_us (plat w) <= INT64_MAX ->
  exists w',
    command_step ch w = Done tt w'
    /\ if is_clear_key ch
       then if fopen_ok (plat w)
            then log_file w' = Some []
                 /\ esp_log w'
                    = esp_log w ++ [LogLine ESP_LOG_INFO "log cleared."]
            else log_file w' = log_file w
                 /\ esp_log w'
                    = esp_log w ++ [LogLine ESP_LOG_ERROR
                                      "failed to open log file for clearing."]
       else exists suffix,
              content w' = content w ++ suffix /\ (length suffix <= 80)%nat.
Proof.
  intros Hresp Hnow.
  destruct (command_step_effect ch w Hresp Hnow)
    as (w' & Hrun & _ & _ & _ & _ & Hclear & _ & Hgrow).
  exists w'. split; [exact Hrun|].
  destruct (is_clear_key ch) eqn:Hc.
  - apply Hclear; [apply clear_key_not_append; exact Hc | reflexivity].
  - apply Hgrow. right. reflexivity.
Qed.

(** X5. Only the append keys a, A, 1 reach the secure element or the
    sequence counter: any other byte, on any element, returns with the
    counter, the shared status and the requests submitted so far
    unchanged; unless it is a clear key the log file and the storage are
    unchanged too, and no error is logged. *)
Theorem command_step_other_keys ch w :
  is_append_key ch = false ->
  exists lines w',
    command_step ch w = Done tt w'
    /\ esp_log w' = esp_log w ++ lines
    /\ s_log_seq w' = s_log_seq w
    /\ se_trace w' = se_trace w
    /\ s_optiga_status w' = s_optiga_status w
    /\ se_pending w' = se_pending w
    /\ (is_clear_key ch = false ->
        log_file w' = log_file w /\ plat w' = plat w
        /\ existsb is_error_line lines = false).
Proof.
  intros Ha. unfold command_step.
  fold (is_append_key ch). fold (is_clear_key ch). rewrite Ha.
  destruct (is_clear_key ch) eqn:Hc.
  { rewrite clear_log_file_run.
    destruct (fopen_ok (plat w));
      (eexists; eexists; split; [reflexivity|]);
      repeat split; discriminate. }
  destruct ((ch =? chr "p"%char) || (ch =? chr "P"%char)).
  { rewrite print_log_file_hex_run.
    eexists. eexists. split; [reflexivity|]. repeat split.
    destruct (if fopen_ok (plat w) then log_file w else None) as [c|];
      [|reflexivity].
    cbn [existsb is_error_line line_level orb].
    generalize (hex_lines_info c).
    induction (hex_lines c) as [|l ls IH]; [reflexivity|].
    cbn [forallb existsb]. unfold is_info_line, is_error_line.
    destruct (line_level l); simpl; try discriminate; exact IH. }
  destruct ((ch =? 13) || (ch =? 10)).
  { exists [], w. split; [reflexivity|]. rewrite app_nil_r. repeat split. }
  rewrite bind_eq. unfold ESP_LOGW, modify. rewrite print_usage_run.
  eexists. eexists. split; [reflexivity|]. simpl esp_log.
  rewrite <- app_assoc. repeat split.
Qed.

Lemma wrap32_add_l a b : wrap32 (wrap32 a + b) = wrap32 (a + b).
Proof. unfold wrap32. apply Z.add_mod_idemp_l. lia. Qed.

Lemma command_loop_effect feed : forall w,
  responsive ->
  INT64_MIN <= uptime_us (plat w) <= INT64_MAX ->
  exists w',
    command_loop feed w = Done tt w'
    /\ same_platform w w'
    /\ (se_pending w = None -> se_pending w' = None)
    /\ wrap32 (s_log_seq w') = wrap32 (s_log_seq w + appends_in feed).
Proof.
  induction feed as [|[len ch] rest IH]; intros w Hresp Hnow.
  - exists w. split; [reflexivity|]. split; [apply same_platform_refl|].
    split; [auto|]. unfold appends_in; simpl. now rewrite Z.add_0_r.
  - cbn [command_loop]. unfold appends_in. cbn [filter fst snd].
    destruct (len <=? 0) eqn:Hl; cbn [negb andb].
    + apply IH; assumption.
    + destruct (command_step_effect ch w Hresp Hnow)
        as (w1 & Hrun & Hplat & Hpd & Happ & Hoth & _).
      assert (Hnow1 : INT64_MIN <= uptime_us (plat w1) <= INT64_MAX).
      { destruct Hplat as (Hu & _). rewrite Hu. exact Hnow. }
      destruct (IH w1 Hresp Hnow1) as (w' & Hrun' & Hplat' & Hpd' & Hseq').
      exists w'. rewrite bind_eq, Hrun.
      split; [exact Hrun'|].
      split; [eapply same_platform_trans; eassumption|].
      split; [auto|].
      rewrite Hseq'. unfold appends_in.
      destruct (is_append_key ch) eqn:Ha.
      * rewrite (Happ eq_refl), wrap32_add_l. cbn [length].
        f_equal. lia.
      * destruct (Hoth eq_refl) as (Hs & _). rewrite Hs. reflexivity.
Qed.

(** X6. On an element that answers in time the command loop gets
    through any feed: for every sequence of reads it returns, never having
    left a buffer; no completion is left pending; and the sequence counter
    has advanced, in 32-bit arithmetic, by the number of append keys
    received, stored or not. *)
Theorem command_loop_safe feed w :
  responsive ->
  INT64_MIN <= uptime_us (plat w) <= INT64_MAX ->
  exists w',
    command_loop feed w = Done tt w'
    /\ same_platform w w'
    /\ (se_pending w = None -> se_pending w' = None)
    /\ wrap32 (s_log_seq w') = wrap32 (s_log_seq w + appends_in feed).
Proof. apply command_loop_effect. Qed.

(** ** Appends that succeed *)

Lemma always_ok_responsive : always_ok -> responsive.
Proof. intros H d req. apply (H d req). Qed.

(** An append on an element on which everything succeeds, with the C
    library and the storage working and room for a record. *)
Lemma append_success_effect w :
  always_ok ->
  INT64_MIN <= uptime_us (plat w) <= INT64_MAX ->
  snprintf_ok (plat w) = true ->
  fopen_ok (plat w) = true ->
  (80 <= fs_free (plat w))%nat ->
  let w1 := set_log_seq (wrap32 (s_log_seq w + 1)) w in
  let text := format_msg (s_log_seq w1) (Z.quot (uptime_us (plat w)) 1000) in
  exists w' a1 a2,
    let iv := fill (uninit AES_IV_BYTES) (resp_out a1) in
    let ct := resp_out a2 in
    append_encrypted_record w = Done tt w'
    /\ length iv = 16%nat
    /\ length ct = 64%nat
    /\ log_file w' = Some (content w ++ iv ++ ct)
    /\ fs_free (plat w') = (fs_free (plat w) - 80)%nat
    /\ same_platform w w'
    /\ s_log_seq w' = wrap32 (s_log_seq w + 1)
    /\ se_pending w' = None
    /\ se_trace w'
       = se_trace w
           ++ [(optiga_crypt_random AES_IV_BYTES, a1);
               (optiga_crypt_symmetric_encrypt
                  (zero_padded text (Z.of_nat (length text))) iv, a2)]
    /\ esp_log w' = esp_log w ++ [LogLine ESP_LOG_INFO "encrypted: %s"].
Proof.
  intros Hok Hnow Hsn Hop Hroom w1 text.
  rewrite append_encrypted_record_eq. cbv zeta. fold w1 text.
  assert (Hlen : (length text <= 48)%nat).
  { apply format_msg_length; [apply wrap32_range | exact Hnow]. }
  destruct (msg_holds_text text ltac:(lia)) as [Hmsg Htext].
  clearbody text. rewrite Hsn.
  rewrite encrypt_record_run;
    [ | unfold AES_IV_BYTES, PLAINTEXT_MAX; lia
      | unfold PLAINTEXT_MAX; lia
      | rewrite Hmsg; lia
      | rewrite length_uninit; reflexivity ].
  cbv zeta.
  set (msg := fill (uninit PLAINTEXT_MAX)
                   (firstn (Z.to_nat (PLAINTEXT_MAX - 1)) text ++ [0])) in *.
  assert (Hpad : zero_padded msg (Z.of_nat (length text))
                 = zero_padded text (Z.of_nat (length text))).
  { unfold zero_padded. rewrite Nat2Z.id, Htext, firstn_all. reflexivity. }
  rewrite Hpad.
  set (rq1 := optiga_crypt_random AES_IV_BYTES).
  set (a1 := se_answer w1 rq1). set (w2 := se_after rq1 w1).
  set (iv := fill (uninit AES_IV_BYTES) (resp_out a1)).
  set (rq2 := optiga_crypt_symmetric_encrypt
                (zero_padded text (Z.of_nat (length text))) iv).
  set (a2 := se_answer w2 rq2). set (w3 := se_after rq2 w2).
  destruct (Hok (se_state w1) rq1) as (T1 & C1 & _).
  destruct (Hok (se_state w2) rq2) as (T2 & C2 & L2').
  change (fst (se_exec (se_state w1) rq1)) with a1 in T1, C1.
  change (fst (se_exec (se_state w2) rq2)) with a2 in T2, C2, L2'.
  assert (L2 : length (resp_out a2) = 64%nat) by exact L2'. clear L2'.
  assert (A2 : is_success (resp_ret a2) = true).
  { unfold completes_ok in C2. apply andb_prop in C2. apply C2. }
  rewrite T1, C1, T2, A2, C2, L2. branch.
  change (Z.of_nat 64 =? PLAINTEXT_MAX) with true. branch.
  change (plat w3) with (plat w). rewrite Hop.
  assert (Hiv : length iv = 16%nat)
    by (unfold iv; rewrite length_fill, length_uninit; reflexivity).
  assert (Hrec : skipn RECORD_BYTES (uninit (AES_IV_BYTES + PLAINTEXT_MAX)) = []).
  { apply skipn_all2. rewrite length_uninit. reflexivity. }
  rewrite Hrec, app_nil_r.
  eexists _, a1, a2. cbv zeta. fold iv.
  split; [reflexivity|]. split; [exact Hiv|]. split; [exact L2|].
  assert (Hmin : Nat.min (Z.to_nat (AES_IV_BYTES + PLAINTEXT_MAX))
                         (fs_free (plat w)) = 80%nat).
  { change (Z.to_nat (AES_IV_BYTES + PLAINTEXT_MAX)) with 80%nat. lia. }
  split.
  { unfold stored, push_log, set_storage. cbn [log_file plat].
    change (plat w3) with (plat w). change (log_file w3) with (log_file w).
    rewrite Hmin, firstn_all2 by (rewrite length_app; lia).
    reflexivity. }
  split.
  { unfold stored, push_log, set_storage. cbn [plat fs_free].
    change (plat w3) with (plat w). rewrite Hmin. reflexivity. }
  split; [repeat split|]. split; [reflexivity|]. split; [reflexivity|].
  split; [|reflexivity].
  unfold w3, w2, se_after; cbn [se_trace push_log stored set_storage].
  rewrite <- app_assoc. reflexivity.
Qed.

(** X7. When everything succeeds, the element, the C library and the
    storage with room for 80 bytes, an append adds exactly one record to
    the log file: the 16-byte IV the element generated, then the 64 bytes
    the element returned for the message, zero-padded to 64 bytes, under
    that IV. It logs the info line and no error. *)
Theorem append_adds_one_record w :
  always_ok ->
  INT64_MIN <= uptime_us (plat w) <= INT64_MAX ->
  snprintf_ok (plat w) = true ->
  fopen_ok (plat w) = true ->
  (80 <= fs_free (plat w))%nat ->
  exists w' iv ct a1 a2,
    append_encrypted_record w = Done tt w'
    /\ log_file w' = Some (content w ++ iv ++ ct)
    /\ length (iv ++ ct) = 80%nat
    /\ iv = fill (uninit AES_IV_BYTES) (resp_out a1)
    /\ ct = resp_out a2
    /\ se_trace w'
       = se_trace w
           ++ [(optiga_crypt_random AES_IV_BYTES, a1);
               (optiga_crypt_symmetric_encrypt
                  (zero_padded
                     (format_msg (wrap32 (s_log_seq w + 1))
                                 (Z.quot (uptime_us (plat w)) 1000))
                     (Z.of_nat
                        (length
                           (format_msg (wrap32 (s_log_seq w + 1))
                                       (Z.quot (uptime_us (plat w)) 1000)))))
                  iv, a2)]
    /\ esp_log w' = esp_log w ++ [LogLine ESP_LOG_INFO "encrypted: %s"].
Proof.
  intros Hok Hnow Hsn Hop Hroom.
  destruct (append_success_effect w Hok Hnow Hsn Hop Hroom)
    as (w' & a1 & a2 & Hrun & Hiv & Hct & Hfile & _ & _ & _ & _ & Htr & Hlog).
  exists w', (fill (uninit AES_IV_BYTES) (resp_out a1)), (resp_out a2), a1, a2.
  split; [exact Hrun|]. split; [exact Hfile|].
  split; [rewrite length_app; lia|].
  split; [reflexivity|]. split; [reflexivity|].
  split; [exact Htr | exact Hlog].
Qed.

(** X8. Append-only growth: [n] append keys in a row, when everything
    succeeds and the storage has room for [n] records, leave the former
    content followed by exactly [80 n] more bytes, use up that much room,
    and advance the sequence counter by [n] in 32-bit arithmetic. *)
Theorem command_loop_appends_grow n : forall w,
  always_ok ->
  INT64_MIN <= uptime_us (plat w) <= INT64_MAX ->
  snprintf_ok (plat w) = true ->
  fopen_ok (plat w) = true ->
  (80 * n <= fs_free (plat w))%nat ->
  exists w' added,
    command_loop (repeat (1, chr "a"%char) n) w = Done tt w'
    /\ content w' = content w ++ added
    /\ length added = (80 * n)%nat
    /\ fs_free (plat w') = (fs_free (plat w) - 80 * n)%nat
    /\ wrap32 (s_log_seq w') = wrap32 (s_log_seq w + Z.of_nat n).
Proof.
  induction n as [|n IH]; intros w Hok Hnow Hsn Hop Hroom.
  - exists w, []. split; [reflexivity|]. rewrite app_nil_r, Z.add_0_r.
    repeat split. simpl. lia.
  - destruct (append_success_effect w Hok Hnow Hsn Hop ltac:(lia))
      as (w1 & a1 & a2 & Hrun & Hiv & Hct & Hfile & Hfree & Hplat & Hseq & _).
    destruct Hplat as (Hu & Hs & Ho).
    destruct (IH w1 Hok) as (w' & added & Hrun' & Hcont & Hadd & Hfree' & Hseq').
    + rewrite Hu. exact Hnow.
    + rewrite Hs. exact Hsn.
    + rewrite Ho. exact Hop.
    + rewrite Hfree. lia.
    + exists w', ((fill (uninit AES_IV_BYTES) (resp_out a1) ++ resp_out a2)
                    ++ added).
      split.
      { cbn [repeat command_loop]. change (1 <=? 0) with false. cbv iota.
        rewrite bind_eq.
        change (command_step (chr "a"%char)) with append_encrypted_record.
        rewrite Hrun. exact Hrun'. }
      split.
      { rewrite Hcont. unfold content at 1. rewrite Hfile.
        rewrite <- !app_assoc. reflexivity. }
      split; [rewrite !length_app; lia|].
      split; [rewrite Hfree', Hfree; lia|].
      rewrite Hseq', Hseq, wrap32_add_l. f_equal. lia.
Qed.

(** ** Provisioning under both policies *)

Lemma se_answer_push_logs req ls w :
  se_answer (push_logs ls w) req = se_answer w req.
Proof. reflexivity. Qed.

Ltac in_time_by H :=
  repeat match goal with
         | |- context [in_time ?a] =>
             replace (in_time a) with true by (symmetry; apply H)
         end.

(** The metadata write followed, when it succeeded, by the key
    generation. *)
Lemma write_then_generate_run w :
  responsive ->
  exists w',
    (early <- (ok <- optiga_write_e200_metadata ;;
               if negb ok then ret (Some false) else ret None) ;;
     match early with
     | Some b => ret b
     | None => optiga_generate_key
     end) w
    = Done (fst (write_then_generate w)) w'
    /\ se_trace w' = se_trace w ++ snd (write_then_generate w)
    /\ s_log_seq w' = s_log_seq w
    /\ plat w' = plat w
    /\ log_file w' = log_file w
    /\ se_pending w' = None
    /\ exists l, esp_log w' = esp_log w ++ l.
Proof.
  intros Hresp. unfold write_then_generate. cbv zeta.
  rewrite bind_eq, bind_eq, optiga_write_e200_metadata_run. cbv zeta.
  in_time_by Hresp.
  destruct (completes_ok (se_answer w _)) eqn:Hw; branch; unfold ret;
    cbv beta iota.
  - rewrite optiga_generate_key_run. cbv zeta.
    in_time_by Hresp. rewrite se_answer_push_logs.
    eexists. split; [reflexivity|]. cbn [fst snd].
    split; [simpl; rewrite <- !app_assoc; reflexivity|].
    do 4 (split; [reflexivity|]).
    eexists. simpl esp_log. rewrite <- app_assoc. reflexivity.
  - eexists. split; [reflexivity|]. cbn [fst snd].
    do 5 (split; [reflexivity|]).
    eexists. reflexivity.
Qed.

Lemma provisioning_run G w :
  responsive ->
  let rd := optiga_util_read_metadata OID_E200 64 in
  let a := se_answer w rd in
  exists ok w',
    optiga_generate_key_if_enabled G w = Done ok w'
    /\ s_log_seq w' = s_log_seq w
    /\ plat w' = plat w
    /\ log_file w' = log_file w
    /\ se_pending w' = None
    /\ (if G =? 0
        then if metadata_present a
             then ok = true /\ se_trace w' = se_trace w ++ [(rd, a)]
             else ok = fst (write_then_generate (se_after rd w))
                  /\ se_trace w'
                     = se_trace w
                         ++ (rd, a) :: snd (write_then_generate (se_after rd w))
        else ok = fst (write_then_generate w)
             /\ se_trace w' = se_trace w ++ snd (write_then_generate w)
             /\ exists l, esp_log w'
                          = esp_log w
                              ++ LogLine ESP_LOG_WARN
                                   "GENERATE_KEY_ON_BOOT=1 (will overwrite key)"
                                 :: l).
Proof.
  intros Hresp rd a.
  unfold optiga_generate_key_if_enabled.
  destruct (G =? 0); cbn [negb]; cbv iota.
  - rewrite bind_eq, bind_eq, optiga_key_ready_run. cbv zeta. fold rd a.
    in_time_by Hresp.
    destruct (metadata_present a) eqn:Hmd.
    + norm_logs. eexists true, _. split; [reflexivity|]. repeat split.
    + rewrite push_logs_nil. unfold ESP_LOGI at 1.
      rewrite bind_eq. unfold modify at 1. cbv beta iota.
      rewrite <- bind_eq.
      destruct (write_then_generate_run
                  (push_log (LogLine ESP_LOG_INFO
                               "OPTIGA key not ready. Initializing...")
                            (se_after rd w)) Hresp)
        as (w' & Hrun & Htr & Hs & Hp & Hf & Hpd & _).
      exists (fst (write_then_generate (se_after rd w))), w'.
      split; [exact Hrun|].
      repeat split; try assumption.
      rewrite Htr. simpl se_trace. rewrite <- app_assoc. reflexivity.
  - unfold ESP_LOGW at 1. rewrite bind_eq, bind_eq. unfold modify at 1.
    cbv beta iota. rewrite <- bind_eq.
    destruct (write_then_generate_run
                (push_log (LogLine ESP_LOG_WARN
                             "GENERATE_KEY_ON_BOOT=1 (will overwrite key)") w)
                Hresp)
      as (w' & Hrun & Htr & Hs & Hp & Hf & Hpd & l & Hl).
    exists (fst (write_then_generate w)), w'.
    split; [exact Hrun|].
    repeat split; try assumption.
    exists l. rewrite Hl. simpl esp_log. rewrite <- app_assoc. reflexivity.
Qed.

(** X9. Under the destructive policy ([GENERATE_KEY_ON_BOOT] not 0)
    provisioning never reads the slot: on an element that answers in time
    it warns, submits one write-metadata request, then one generate-key
    request if and only if the write completed with success, and returns
    true exactly when both completed with success. *)
Theorem provisioning_destructive G w :
  G <> 0 ->
  responsive ->
  let wr := optiga_util_write_metadata OID_E200 e200_metadata in
  let gen := optiga_crypt_symmetric_generate_key in
  let aw := se_answer w wr in
  let ag := se_answer (se_after wr w) gen in
  exists ok w' ops l,
    optiga_generate_key_if_enabled G w = Done ok w'
    /\ ok = completes_ok aw && completes_ok ag
    /\ se_trace w' = se_trace w ++ ops
    /\ ops = (wr, aw) :: (if completes_ok aw then [(gen, ag)] else [])
    /\ existsb is_read_metadata ops = false
    /\ esp_log w'
       = esp_log w
           ++ LogLine ESP_LOG_WARN "GENERATE_KEY_ON_BOOT=1 (will overwrite key)"
              :: l.
Proof.
  intros HG Hresp wr gen aw ag.
  destruct (provisioning_run G w Hresp)
    as (ok & w' & Hrun & _ & _ & _ & _ & Hcase).
  apply Z.eqb_neq in HG. rewrite HG in Hcase.
  destruct Hcase as (Hok & Htr & l & Hl).
  exists ok, w', (snd (write_then_generate w)), l.
  split; [exact Hrun|].
  unfold write_then_generate in *. cbv zeta in *. fold wr gen aw ag in Hok, Htr |- *.
  destruct (completes_ok aw); cbn [fst snd] in *; subst ok;
    repeat split; assumption.
Qed.

(** X10. Under the non-destructive policy, on an element that answers
    in time, provisioning returns true exactly when the slot already has
    metadata, or the metadata write and the key generation both completed
    with success. *)
Theorem provisioning_result w :
  responsive ->
  let rd := optiga_util_read_metadata OID_E200 64 in
  let wr := optiga_util_write_metadata OID_E200 e200_metadata in
  let gen := optiga_crypt_symmetric_generate_key in
  let a := se_answer w rd in
  let aw := se_answer (se_after rd w) wr in
  let ag := se_answer (se_after wr (se_after rd w)) gen in
  exists w',
    optiga_generate_key_if_enabled 0 w
    = Done (metadata_present a || (completes_ok aw && completes_ok ag)) w'.
Proof.
  intros Hresp rd wr gen a aw ag.
  destruct (provisioning_run 0 w Hresp)
    as (ok & w' & Hrun & _ & _ & _ & _ & Hcase).
  change (0 =? 0) with true in Hcase. cbv iota zeta in Hcase.
  fold rd a in Hcase.
  exists w'. rewrite Hrun. f_equal.
  destruct (metadata_present a).
  - destruct Hcase as [-> _]. reflexivity.
  - destruct Hcase as [-> _]. unfold write_then_generate. cbv zeta.
    fold wr gen aw ag. destruct (completes_ok aw); reflexivity.
Qed.

(** X11. Provisioning, under either policy, leaves the log file, the
    storage and the sequence counter as they were and, on an element that
    answers in time, returns with no completion pending. *)
Theorem provisioning_leaves_store G w :
  responsive ->
  exists ok w',
    optiga_generate_key_if_enabled G w = Done ok w'
    /\ log_file w' = log_file w
    /\ plat w' = plat w
    /\ s_log_seq w' = s_log_seq w
    /\ se_pending w' = None.
Proof.
  intros Hresp.
  destruct (provisioning_run G w Hresp)
    as (ok & w' & Hrun & Hs & Hp & Hf & Hpd & _).
  exists ok, w'. repeat split; assumption.
Qed.

(** X12. [optiga_key_ready] is an existence check on the metadata only:
    when the read is answered in time it submits that one request and
    returns true for any blob that is not empty, whatever its bytes, and
    false when the read is refused, fails or returns no byte. *)
Theorem optiga_key_ready_weak_check w :
  let rd := optiga_util_read_metadata OID_E200 64 in
  let a := se_answer w rd in
  in_time a = true ->
  exists w',
    optiga_key_ready w = Done (metadata_present a) w'
    /\ se_trace w' = se_trace w ++ [(rd, a)]
    /\ log_file w' = log_file w
    /\ (completes_ok a = true -> resp_out a <> [] -> metadata_present a = true)
    /\ (completes_ok a = false \/ resp_out a = [] -> metadata_present a = false).
Proof.
  intros rd a Hin.
  rewrite optiga_key_ready_run. cbv zeta. fold rd a. rewrite Hin.
  eexists. split; [reflexivity|]. split; [reflexivity|].
  split; [reflexivity|]. unfold metadata_present. split.
  - intros Hc Hne. rewrite Hc. destruct (resp_out a); [contradiction|reflexivity].
  - intros [Hc|He]; [rewrite Hc; reflexivity|].
    rewrite He. apply andb_false_r.
Qed.

(** ** The codec when the element fails or hangs *)

(** X13. No IV, no encryption: when the random request is answered in
    time but refused or failed, [encrypt_record] returns false with the
    record buffer untouched, having submitted that one request and no
    encryption, whatever the plaintext and its length. *)
Theorem encrypt_record_no_iv_no_encrypt plaintext pt_len record record_len w :
  AES_IV_BYTES + PLAINTEXT_MAX <= record_len ->
  let rq := optiga_crypt_random AES_IV_BYTES in
  in_time (se_answer w rq) = true ->
  completes_ok (se_answer w rq) = false ->
  exists w',
    encrypt_record plaintext pt_len record record_len w = Done (false, record) w'
    /\ se_trace w' = se_trace w ++ [(rq, se_answer w rq)]
    /\ esp_log w' = esp_log w ++ [LogLine ESP_LOG_ERROR "IV generation failed"]
    /\ log_file w' = log_file w.
Proof.
  intros Hlen rq Hin Hfail. unfold encrypt_record.
  replace (record_len <? AES_IV_BYTES + PLAINTEXT_MAX) with false
    by (symmetry; apply Z.ltb_ge; lia).
  rewrite bind_eq, optiga_rng_fill_run. cbv zeta. fold rq.
  rewrite Hin, Hfail. branch. norm_logs.
  eexists. split; [reflexivity|]. repeat split.
Qed.

(** X14. The wait has no timeout: when the element accepts the random
    request and never completes it, [append_encrypted_record] is still
    waiting after any number of polls; it never returns and stores
    nothing. *)
Theorem append_hangs_on_silent_element w :
  let a := se_answer w (optiga_crypt_random AES_IV_BYTES) in
  snprintf_ok (plat w) = true ->
  is_success (resp_ret a) = true ->
  resp_done a = None ->
  append_encrypted_record w = Timeout.
Proof.
  intros a Hsn Hacc Hnever.
  rewrite append_encrypted_record_eq. cbv zeta. rewrite Hsn.
  unfold encrypt_record.
  change (AES_IV_BYTES + PLAINTEXT_MAX <? AES_IV_BYTES + PLAINTEXT_MAX)
    with false. cbv iota.
  rewrite bind_eq, optiga_rng_fill_run. cbv zeta.
  change (se_answer (set_log_seq _ w) ?r) with (se_answer w r). fold a.
  unfold in_time. rewrite Hacc, Hnever. reflexivity.
Qed.

(** ** Start-up *)

Lemma keeps_store_provisioning G : keeps_store (optiga_generate_key_if_enabled G).
Proof.
  unfold optiga_generate_key_if_enabled, optiga_key_ready,
    optiga_write_e200_metadata, optiga_generate_key,
    ESP_LOGE, ESP_LOGW, ESP_LOGI.
  apply keeps_store_bind.
  - destruct (negb (G =? 0)); keeps_store_steps.
  - intros [b|]; keeps_store_steps.
Qed.

Lemma app_main_aborts_early SD G env feed w :
  is_esp_ok (mount_result env) && crypt_created env && util_created env
  = false ->
  exists w' l msg,
    app_main SD G env feed w = Done tt w'
    /\ esp_log w' = esp_log w ++ l ++ [LogLine ESP_LOG_ERROR msg]
    /\ se_trace w' = se_trace w
    /\ s_optiga_status w' = s_optiga_status w
    /\ log_file w' = log_file w
    /\ plat w' = plat w
    /\ s_log_seq w' = s_log_seq w.
Proof.
  intros Hfail. unfold app_main, setup_uart, optiga_trust_init,
    mount_storage, optiga_crypto_init.
  destruct (mount_result env) as [|code] eqn:Hm; cbn [is_esp_ok andb] in Hfail.
  - destruct (crypt_created env) eqn:Hc;
      [destruct (util_created env) eqn:Hu; [discriminate|]|];
      destruct (negb (SD =? 0));
      (eexists _, [_; _], _;
       split; [reflexivity|]; simpl esp_log; rewrite <- !app_assoc;
       repeat split).
  - destruct (negb (SD =? 0));
      (eexists _, [_; _], _;
       split; [reflexivity|]; simpl esp_log; rewrite <- !app_assoc;
       repeat split).
Qed.

(** X15. A start-up failure outside the secure element is fatal: when
    the storage cannot be mounted or a driver instance cannot be created,
    [app_main] returns after logging an error, whatever is fed to the
    serial line; no request has been submitted to the secure element and
    the log file, the storage and the sequence counter are untouched. *)
Theorem app_main_platform_failure SD G env feed w :
  is_esp_ok (mount_result env) && crypt_created env && util_created env
  = false ->
  exists w' l msg,
    app_main SD G env feed w = Done tt w'
    /\ esp_log w' = esp_log w ++ l ++ [LogLine ESP_LOG_ERROR msg]
    /\ se_trace w' = se_trace w
    /\ s_optiga_status w' = s_optiga_status w
    /\ log_file w' = log_file w
    /\ plat w' = plat w
    /\ s_log_seq w' = s_log_seq w.
Proof. apply app_main_aborts_early. Qed.

(** X16. A provisioning failure is fatal too: when everything outside
    the secure element works but provisioning returns false, [app_main]
    logs the error and returns without dumping the file or entering the
    command loop; whatever is fed to the serial line, the log file, the
    storage and the sequence counter are untouched. *)
Theorem app_main_provisioning_failure SD G env feed w wp :
  mount_result env = ESP_OK ->
  crypt_created env = true ->
  util_created env = true ->
  optiga_generate_key_if_enabled G
    (push_log (LogLine ESP_LOG_INFO "Encrypted data logging demo (ESP-IDF)") w)
  = Done false wp ->
  app_main SD G env feed w
  = Done tt (push_log (LogLine ESP_LOG_ERROR "optiga key init failed") wp)
  /\ log_file wp = log_file w
  /\ plat wp = plat w
  /\ s_log_seq wp = s_log_seq w.
Proof.
  intros Hm Hc Hu Hprov.
  split.
  - unfold app_main, setup_uart, optiga_trust_init, mount_storage,
      optiga_crypto_init.
    rewrite Hm, Hc, Hu.
    destruct (negb (SD =? 0)); cbn [is_esp_ok negb];
      unfold ESP_LOGI, ESP_LOGE, bind, modify, ret;
      cbv beta iota; cbn [is_esp_ok negb]; cbv beta iota;
      rewrite Hprov; reflexivity.
  - destruct (keeps_store_provisioning G _ _ _ Hprov) as (H1 & H2 & H3).
    repeat split; assumption.
Qed.

(** X17. On an element that answers in time, and with
    [optiga_trust_init], which is outside main.c, returning, [app_main]
    gets through any start-up and any feed without hanging or leaving a
    buffer. When the storage is mounted, both driver instances are created
    and provisioning returns true, it goes on from the state provisioning
    left to the dump, the usage text and the command loop, and the sequence
    counter ends advanced, in 32-bit arithmetic, by the number of append
    keys fed, with no completion pending. In every other case it ends on
    an error line with the sequence counter and the log file untouched. *)
Theorem app_main_safe SD G env feed w :
  responsive ->
  INT64_MIN <= uptime_us (plat w) <= INT64_MAX ->
  exists ok wp w',
    optiga_generate_key_if_enabled G
      (push_log (LogLine ESP_LOG_INFO "Encrypted data logging demo (ESP-IDF)")
                w)
    = Done ok wp
    /\ app_main SD G env feed w = Done tt w'
    /\ if is_esp_ok (mount_result env) && crypt_created env
          && util_created env && ok
       then (print_log_file_hex ;; print_usage ;; command_loop feed) wp
            = Done tt w'
            /\ wrap32 (s_log_seq w') = wrap32 (s_log_seq w + appends_in feed)
            /\ se_pending w' = None
       else s_log_seq w' = s_log_seq w
            /\ log_file w' = log_file w
            /\ fs_free (plat w') = fs_free (plat w)
            /\ exists l msg, esp_log w' = l ++ [LogLine ESP_LOG_ERROR msg].
Proof.
  intros Hresp Hnow.
  set (w0 := push_log (LogLine ESP_LOG_INFO
                         "Encrypted data logging demo (ESP-IDF)") w).
  destruct (provisioning_run G w0 Hresp)
    as (ok & wp & Hprov & Hs & Hp & Hf & Hpd & _).
  exists ok, wp.
  destruct (is_esp_ok (mount_result env) && crypt_created env
            && util_created env) eqn:Hboot.
  2:{ destruct (app_main_aborts_early SD G env feed w Hboot)
        as (w' & l & msg & Hrun & Hlog & _ & _ & Hfile & Hplat & Hseq).
      exists w'. split; [exact Hprov|]. split; [exact Hrun|].
      cbn [andb]. split; [exact Hseq|]. split; [exact Hfile|].
      split; [rewrite Hplat; reflexivity|].
      exists (esp_log w ++ l), msg. rewrite Hlog. apply app_assoc. }
  apply andb_prop in Hboot as [Hboot Hu]. apply andb_prop in Hboot as [Hm Hc].
  destruct (mount_result env) eqn:Hmr; [|discriminate].
  assert (Hstart : app_main SD G env feed w
                   = if ok
                     then (print_log_file_hex ;; print_usage ;;
                           command_loop feed) wp
                     else Done tt (push_log (LogLine ESP_LOG_ERROR
                                               "optiga key init failed") wp)).
  { unfold app_main, setup_uart, optiga_trust_init, mount_storage,
      optiga_crypto_init.
    rewrite Hmr, Hc, Hu.
    destruct (negb (SD =? 0)); cbn [is_esp_ok negb];
      unfold ESP_LOGI at 1; unfold bind at 1 2 3 4 5 6; unfold modify, ret;
      cbv beta iota; cbn [is_esp_ok negb]; cbv beta iota;
      fold w0; rewrite Hprov; destruct ok; reflexivity. }
  rewrite Hstart. cbn [andb]. destruct ok.
  - assert (Hloop : exists w',
               (print_log_file_hex ;; print_usage ;; command_loop feed) wp
               = Done tt w'
               /\ wrap32 (s_log_seq w')
                  = wrap32 (s_log_seq w + appends_in feed)
               /\ se_pending w' = None).
    { rewrite bind_eq, print_log_file_hex_run, bind_eq, print_usage_run.
      set (wl := push_logs _ (push_logs _ wp)).
      destruct (command_loop_effect feed wl Hresp)
        as (w' & Hrun & _ & Hpd' & Hseq).
      { change (plat wl) with (plat wp). rewrite Hp. exact Hnow. }
      exists w'. split; [exact Hrun|]. split.
      - rewrite Hseq. change (s_log_seq wl) with (s_log_seq wp).
        rewrite Hs. reflexivity.
      - apply Hpd'. exact Hpd. }
    destruct Hloop as (w' & Hrun & Hseq & Hpd').
    exists w'. split; [exact Hprov|]. split; [exact Hrun|].
    split; [exact Hrun|]. split; [exact Hseq | exact Hpd'].
  - eexists. split; [exact Hprov|]. split; [reflexivity|].
    split; [exact Hs|]. split; [exact Hf|].
    split; [cbn [plat push_log]; rewrite Hp; reflexivity|].
    exists (esp_log wp), "optiga key init failed"%string. reflexivity.
Qed.

(** X19. One IV per record: two appends in a row, when everything
    succeeds, store two records whose IVs are the answers to two separate
    random requests, the first and the third request of the four
    submitted. *)
Theorem two_appends_two_ivs w :
  always_ok ->
  INT64_MIN <= uptime_us (plat w) <= INT64_MAX ->
  snprintf_ok (plat w) = true ->
  fopen_ok (plat w) = true ->
  (160 <= fs_free (plat w))%nat ->
  exists w1 w2 a1 c1 a2 c2 p1 p2,
    append_encrypted_record w = Done tt w1
    /\ append_encrypted_record w1 = Done tt w2
    /\ se_trace w2
       = se_trace w
           ++ [(optiga_crypt_random AES_IV_BYTES, a1);
               (optiga_crypt_symmetric_encrypt
                  p1 (fill (uninit AES_IV_BYTES) (resp_out a1)), c1);
               (optiga_crypt_random AES_IV_BYTES, a2);
               (optiga_crypt_symmetric_encrypt
                  p2 (fill (uninit AES_IV_BYTES) (resp_out a2)), c2)]
    /\ log_file w2
       = Some (content w
                 ++ (fill (uninit AES_IV_BYTES) (resp_out a1) ++ resp_out c1)
                 ++ (fill (uninit AES_IV_BYTES) (resp_out a2) ++ resp_out c2)).
Proof.
  intros Hok Hnow Hsn Hop Hroom.
  destruct (append_success_effect w Hok Hnow Hsn Hop ltac:(lia))
    as (w1 & a1 & c1 & Hrun1 & _ & _ & Hfile1 & Hfree1 & (Hu & Hs & Ho)
        & _ & _ & Htr1 & _).
  destruct (append_success_effect w1 Hok)
    as (w2 & a2 & c2 & Hrun2 & _ & _ & Hfile2 & _ & _ & _ & _ & Htr2 & _).
  - rewrite Hu. exact Hnow.
  - rewrite Hs. exact Hsn.
  - rewrite Ho. exact Hop.
  - rewrite Hfree1. lia.
  - exists w1, w2, a1, c1, a2, c2. eexists. eexists.
    split; [exact Hrun1|]. split; [exact Hrun2|]. split.
    + rewrite Htr2, Htr1, <- app_assoc. reflexivity.
    + rewrite Hfile2. unfold content at 1. rewrite Hfile1.
      rewrite <- !app_assoc. reflexivity.
Qed.

End Model.

Arguments ret {dev}.
Arguments bind {dev}.
Arguments gets {dev}.
Arguments modify {dev}.
Arguments undefined_behaviour {dev}.
Arguments ESP_LOGE {dev}.
Arguments ESP_LOGW {dev}.
Arguments ESP_LOGI {dev}.
Arguments memcpy {dev}.
Arguments optiga_callback {dev}.
Arguments pal_os_timer_delay_in_milliseconds {dev}.
Arguments se_submit {dev}.
Arguments optiga_wait_loop {dev}.
Arguments optiga_wait {dev}.
Arguments optiga_rng_fill {dev}.
Arguments optiga_key_ready {dev}.
Arguments optiga_write_e200_metadata {dev}.
Arguments optiga_generate_key {dev}.
Arguments optiga_generate_key_if_enabled {dev}.
Arguments encrypt_record {dev}.
Arguments snprintf {dev}.
Arguments fopen_ab {dev}.
Arguments fopen_rb {dev}.
Arguments fwrite {dev}.
Arguments fclose {dev}.
Arguments append_encrypted_record {dev}.
Arguments hex_dump_loop {dev}.
Arguments print_log_file_hex {dev}.
Arguments se_call {dev}.
Arguments se_answer {dev}.
Arguments se_after {dev}.
Arguments responsive {dev}.
Arguments push_logs {dev}.
Arguments stored {dev}.
Arguments keeps_store {dev}.
Arguments optiga_crypto_init {dev}.
Arguments print_usage {dev}.
Arguments fopen_wb {dev}.
Arguments clear_log_file {dev}.
Arguments mount_storage {dev}.
Arguments setup_uart {dev}.
Arguments optiga_trust_init {dev}.
Arguments command_step {dev}.
Arguments command_loop {dev}.
Arguments app_main {dev}.
Arguments content {dev}.
Arguments always_ok {dev}.
Arguments same_platform {dev}.
Arguments write_then_generate {dev}.

(** * What does not depend on the stack *)

(** X18. No byte of an uninitialised array reaches the secure element
    or the log file: when the element returns 16 bytes for a 16-byte random
    request, [append_encrypted_record] ends the same way, with the same
    requests submitted, the same bytes stored and the same sequence
    counter, whatever the stack held. The ESP log is kept here by format
    string, so the text printed for [msg] is not part of what is
    compared. *)
Theorem append_ignores_stack_content (dev : Type)
        (se_exec : dev -> se_request -> se_response * dev)
        (junk1 junk2 : nat -> Z) (polls : nat) (w : world dev) :
  INT64_MIN <= uptime_us (plat w) <= INT64_MAX ->
  (forall d,
     length (resp_out (fst (se_exec d (optiga_crypt_random AES_IV_BYTES))))
     = 16%nat) ->
  append_encrypted_record se_exec junk1 polls w
  = append_encrypted_record se_exec junk2 polls w.
Proof.
  intros Hnow Hrng.
  rewrite (append_encrypted_record_eq dev se_exec junk1 polls w),
          (append_encrypted_record_eq dev se_exec junk2 polls w).
  cbv zeta.
  set (w1 := set_log_seq (wrap32 (s_log_seq w + 1)) w).
  set (text := format_msg (s_log_seq w1) (Z.quot (uptime_us (plat w)) 1000)).
  assert (Hlen : (length text <= 48)%nat).
  { apply format_msg_length; [apply wrap32_range | exact Hnow]. }
  clearbody text.
  destruct (snprintf_ok (plat w)); [|reflexivity].
  assert (Hside : forall junk,
    encrypt_record se_exec junk polls
      (fill (uninit junk PLAINTEXT_MAX)
            (firstn (Z.to_nat (PLAINTEXT_MAX - 1)) text ++ [0]))
      (Z.of_nat (length text))
      (uninit junk (AES_IV_BYTES + PLAINTEXT_MAX))
      (AES_IV_BYTES + PLAINTEXT_MAX) w1
    = let rq1 := optiga_crypt_random AES_IV_BYTES in
      let a1 := se_answer se_exec w1 rq1 in
      let w2 := se_after se_exec rq1 w1 in
      let iv := resp_out a1 in
      let rq2 := optiga_crypt_symmetric_encrypt
                   (zero_padded text (Z.of_nat (length text))) iv in
      let a2 := se_answer se_exec w2 rq2 in
      let w3 := se_after se_exec rq2 w2 in
      if negb (in_time polls a1) then Timeout
      else if negb (completes_ok a1)
      then Done (false, uninit junk (AES_IV_BYTES + PLAINTEXT_MAX))
                (push_logs [LogLine ESP_LOG_ERROR "IV generation failed"] w2)
      else if negb (in_time polls a2) then Timeout
      else if negb (is_success (resp_ret a2))
      then Done (false, uninit junk (AES_IV_BYTES + PLAINTEXT_MAX))
                (push_logs [LogLine ESP_LOG_ERROR
                              "optiga_crypt_symmetric_encrypt start failed: 0x%04X"]
                           w3)
      else if negb (completes_ok a2)
      then Done (false, uninit junk (AES_IV_BYTES + PLAINTEXT_MAX))
                (push_logs [LogLine ESP_LOG_ERROR
                              "optiga_crypt_symmetric_encrypt failed"] w3)
      else if negb (Z.of_nat (length (resp_out a2)) =? PLAINTEXT_MAX)
      then Done (false, uninit junk (AES_IV_BYTES + PLAINTEXT_MAX))
                (push_logs [LogLine ESP_LOG_ERROR
                              "unexpected ciphertext length: %lu"] w3)
      else Done (true, iv ++ resp_out a2) w3).
  { intros junk.
    destruct (msg_holds_text junk text ltac:(lia)) as [Hmsg Htext].
    rewrite encrypt_record_run;
      [ | unfold AES_IV_BYTES, PLAINTEXT_MAX; lia
        | unfold PLAINTEXT_MAX; lia
        | rewrite Hmsg; lia
        | rewrite length_uninit; reflexivity ].
    cbv zeta.
    assert (Hpad : zero_padded
                     (fill (uninit junk PLAINTEXT_MAX)
                           (firstn (Z.to_nat (PLAINTEXT_MAX - 1)) text ++ [0]))
                     (Z.of_nat (length text))
                   = zero_padded text (Z.of_nat (length text))).
    { unfold zero_padded. rewrite Nat2Z.id, Htext, firstn_all. reflexivity. }
    assert (Hiv : fill (uninit junk AES_IV_BYTES)
                       (resp_out (se_answer se_exec w1
                                    (optiga_crypt_random AES_IV_BYTES)))
                  = resp_out (se_answer se_exec w1
                                (optiga_crypt_random AES_IV_BYTES))).
    { apply fill_exact. rewrite length_uninit. apply Hrng. }
    assert (Hrec : skipn RECORD_BYTES
                         (uninit junk (AES_IV_BYTES + PLAINTEXT_MAX)) = []).
    { apply skipn_all2. rewrite length_uninit. reflexivity. }
    rewrite Hpad, Hiv, Hrec, app_nil_r. reflexivity. }
  rewrite (Hside junk1), (Hside junk2). cbv zeta.
  repeat match goal with
         | |- context [if negb ?b then _ else _] =>
             destruct b; cbn [negb]; cbv iota
         end; reflexivity.
Qed.

(** * The claims on stub secure elements *)

Lemma stub_responsive : responsive stub_exec stub_polls.
Proof.
  intros d req. destruct d as [meta wok rok].
  destruct req; try reflexivity.
  - destruct rok; reflexivity.
  - destruct wok; reflexivity.
Qed.

(** The end-to-end example of the specification: sequence number 1 at
    532 ms gives a 25-byte message; with the IV 0x00..0x0F and a cipher
    that flips every bit the stored record is the IV, then the message
    xor 0xFF, then 39 bytes 0xFF. *)
Lemma append_end_to_end_example :
  length (format_msg 1 532) = 25%nat
  /\ exists w' record,
       append_encrypted_record stub_exec stub_junk stub_polls
         (stub_world stub_ready stub_platform None) = Done tt w'
       /\ log_file w' = Some record
       /\ length record = 80%nat
       /\ firstn 16 record = map Z.of_nat (seq 0 16)
       /\ firstn 25 (skipn 16 record)
          = map (fun b => Z.lxor b 0xFF) (format_msg 1 532)
       /\ skipn 41 record = repeat 0xFF 39.
Proof.
  split; [reflexivity|]. eexists. eexists.
  split; [vm_compute; reflexivity|].
  repeat split.
Qed.

(** C1, the claim as stated fails: a plaintext length of 65 with an
    80-byte output buffer is not rejected. The element delivers the IV and
    the codec then copies 65 bytes into its 64-byte buffer. *)
Lemma encrypt_record_long_plaintext_not_rejected :
  PLAINTEXT_MAX < 65
  /\ encrypt_record stub_exec stub_junk stub_polls (repeat 65 65%nat) 65
                    (repeat 0 80%nat) 80
                    (stub_world stub_ready stub_platform None)
     = Undefined
  /\ forall w',
       encrypt_record stub_exec stub_junk stub_polls (repeat 65 65%nat) 65
                      (repeat 0 80%nat) 80
                      (stub_world stub_ready stub_platform None)
       <> Done (false, repeat 0 80%nat) w'.
Proof.
  split; [reflexivity|]. split; [vm_compute; reflexivity|].
  intros w' H. vm_compute in H. discriminate.
Qed.

(** C1 as amended, on an element whose random generator fails: the long
    plaintext is turned away only because no IV could be generated. *)
Lemma encrypt_record_no_plaintext_guard_witness :
  PLAINTEXT_MAX < 65
  /\ encrypt_record stub_exec stub_junk stub_polls (repeat 65 65%nat) 65
                    (repeat 0 80%nat) 80
                    (stub_world stub_norng stub_platform None)
     = Done (false, repeat 0 80%nat)
            (push_logs [LogLine ESP_LOG_ERROR "IV generation failed"]
               (se_after stub_exec (optiga_crypt_random AES_IV_BYTES)
                         (stub_world stub_norng stub_platform None))).
Proof.
  split; [reflexivity|].
  rewrite (encrypt_record_no_plaintext_guard stub_dev stub_exec stub_junk
             stub_polls (repeat 65 65%nat) 65 (repeat 0 80%nat) 80
             (stub_world stub_norng stub_platform None));
    reflexivity.
Defined.

(** C2 on the provisioned stub, for the 25-byte message of sequence
    number 1 at 532 ms. *)
Lemma encrypt_record_fixed_size_witness :
  responsive stub_exec stub_polls
  /\ 0 <= 25 <= PLAINTEXT_MAX
  /\ 25 <= Z.of_nat (length (format_msg 1 532))
  /\ 80 <= Z.of_nat (length (repeat 0 80%nat))
  /\ exists ok record' w',
       encrypt_record stub_exec stub_junk stub_polls (format_msg 1 532) 25
                      (repeat 0 80%nat) 80
                      (stub_world stub_ready stub_platform None)
       = Done (ok, record') w'
       /\ ((ok = false /\ record' = repeat 0 80%nat)
           \/ (ok = true /\ length (firstn RECORD_BYTES record') = 80%nat)).
Proof.
  split; [exact stub_responsive|].
  split; [unfold PLAINTEXT_MAX; lia|].
  split; [vm_compute; discriminate|].
  split; [vm_compute; discriminate|].
  destruct (encrypt_record_fixed_size stub_dev stub_exec stub_junk stub_polls
              (format_msg 1 532) 25 (repeat 0 80%nat) 80
              (stub_world stub_ready stub_platform None))
    as (ok & record' & w' & Hrun & Hpost).
  - exact stub_responsive.
  - unfold PLAINTEXT_MAX; lia.
  - vm_compute; discriminate.
  - vm_compute; discriminate.
  - exists ok, record', w'. split; [exact Hrun|].
    destruct Hpost as [Hno|(Hok & a1 & a2 & H)]; [left; exact Hno|].
    right. split; [exact Hok|]. apply H.
Defined.

(** C3, the claim as stated fails: on an element whose slot has no
    metadata and that refuses the metadata write, the read returns an empty
    blob, one write-metadata request is submitted and no generate-key
    request follows. *)
Lemma provisioning_refused_write_no_key :
  metadata_present
    (se_answer stub_exec (stub_world stub_locked stub_platform None)
               (optiga_util_read_metadata OID_E200 64)) = false
  /\ exists w',
       optiga_generate_key_if_enabled stub_exec stub_polls 0
         (stub_world stub_locked stub_platform None) = Done false w'
       /\ count_write_metadata (se_trace w') = 1%nat
       /\ count_generate_key (se_trace w') = 0%nat
       /\ count_generate_key (se_trace w') <> 1%nat.
Proof.
  split; [reflexivity|]. eexists. split; [vm_compute; reflexivity|].
  split; [reflexivity|]. split; [reflexivity|]. discriminate.
Qed.

(** C3 as amended, on an element whose slot has no metadata and that
    accepts the write: one write-metadata and one generate-key request. *)
Lemma provisioning_non_destructive_witness :
  responsive stub_exec stub_polls
  /\ exists ok w' ops,
       optiga_generate_key_if_enabled stub_exec stub_polls 0
         (stub_world stub_blank stub_platform None) = Done ok w'
       /\ se_trace w'
          = (optiga_util_read_metadata OID_E200 64,
             se_answer stub_exec (stub_world stub_blank stub_platform None)
                       (optiga_util_read_metadata OID_E200 64)) :: ops
       /\ count_write_metadata ops = 1%nat
       /\ count_generate_key ops = 1%nat.
Proof.
  split; [exact stub_responsive|].
  destruct (provisioning_non_destructive stub_dev stub_exec stub_polls
              (stub_world stub_blank stub_platform None) stub_responsive)
    as (ok & w' & ops & Hrun & Htr & _ & Hblank).
  exists ok, w', ops. split; [exact Hrun|]. split; [exact Htr|].
  destruct (Hblank eq_refl) as (Hw & Hg & _).
  split; [exact Hw | exact Hg].
Defined.

(** C4, the claim as stated fails: a log file of 100 bytes, one record
    and 20 bytes of a torn one, is dumped like any other; every line of
    the output is at info level and none reports the misalignment. *)
Lemma print_log_file_hex_torn_file_not_flagged :
  (Z.of_nat (length torn_file) mod 80 <> 0)
  /\ exists w',
       print_log_file_hex (stub_world stub_ready stub_platform (Some torn_file))
       = Done tt w'
       /\ esp_log w'
          = [LogLine ESP_LOG_INFO "raw file content (hex):";
             LogHex ESP_LOG_INFO (firstn 32 torn_file);
             LogHex ESP_LOG_INFO (firstn 32 (skipn 32 torn_file));
             LogHex ESP_LOG_INFO (firstn 32 (skipn 64 torn_file));
             LogHex ESP_LOG_INFO (skipn 96 torn_file)]
       /\ forallb is_info_line (esp_log w') = true.
Proof.
  split; [vm_compute; discriminate|].
  eexists. split; [vm_compute; reflexivity|].
  split; reflexivity.
Qed.

(** C4 as amended, on the same file. *)
Lemma print_log_file_hex_renders_all_witness :
  fopen_ok (plat (stub_world stub_ready stub_platform (Some torn_file))) = true
  /\ log_file (stub_world stub_ready stub_platform (Some torn_file))
     = Some torn_file
  /\ exists chunks,
       print_log_file_hex (stub_world stub_ready stub_platform (Some torn_file))
       = Done tt
           (push_logs (LogLine ESP_LOG_INFO "raw file content (hex):"
                         :: map (LogHex ESP_LOG_INFO) chunks)
                      (stub_world stub_ready stub_platform (Some torn_file)))
       /\ concat chunks = torn_file.
Proof.
  split; [reflexivity|]. split; [reflexivity|].
  destruct (print_log_file_hex_renders_all stub_dev
              (stub_world stub_ready stub_platform (Some torn_file))
              torn_file eq_refl eq_refl)
    as (chunks & Hrun & Hcat & _).
  exists chunks. split; [exact Hrun | exact Hcat].
Defined.

(** C5, the code at the failing input: with room for 40 bytes only, the
    append writes the first 40 bytes of the record and its only output is
    the info line of a successful append; no error is reported. *)
Theorem append_short_write_not_reported :
  exists w',
    append_encrypted_record stub_exec stub_junk stub_polls
      (stub_world stub_ready full_platform None) = Done tt w'
    /\ option_map (@length Z) (log_file w') = Some 40%nat
    /\ esp_log w' = [LogLine ESP_LOG_INFO "encrypted: %s"]
    /\ existsb is_error_line (esp_log w') = false.
Proof.
  eexists. split; [vm_compute; reflexivity|].
  repeat split.
Qed.

(** The sibling failure is reported: when the file cannot be opened the
    append logs an error and stores nothing. *)
Lemma append_open_failure_reported :
  exists w',
    append_encrypted_record stub_exec stub_junk stub_polls
      (stub_world stub_ready closed_platform None) = Done tt w'
    /\ log_file w' = None
    /\ esp_log w'
       = [LogLine ESP_LOG_ERROR "failed to open log file for append"].
Proof.
  eexists. split; [vm_compute; reflexivity|].
  repeat split.
Qed.

(** C6 on an element whose random generator fails: no IV, no record, and
    the log file stays absent. *)
Lemma append_encoding_failure_keeps_file_witness :
  (snprintf_ok (plat (stub_world stub_norng stub_platform None)) = false
   \/ exists record w2,
        encrypt_record stub_exec stub_junk stub_polls
          (fill (uninit stub_junk PLAINTEXT_MAX)
                (firstn (Z.to_nat (PLAINTEXT_MAX - 1)) (format_msg 1 532)
                   ++ [0]))
          25 (uninit stub_junk (AES_IV_BYTES + PLAINTEXT_MAX))
          (AES_IV_BYTES + PLAINTEXT_MAX)
          (set_log_seq 1 (stub_world stub_norng stub_platform None))
        = Done (false, record) w2)
  /\ exists w',
       append_encrypted_record stub_exec stub_junk stub_polls
         (stub_world stub_norng stub_platform None) = Done tt w'
       /\ log_file w' = None.
Proof.
  assert (Hfail :
    exists record w2,
      encrypt_record stub_exec stub_junk stub_polls
        (fill (uninit stub_junk PLAINTEXT_MAX)
              (firstn (Z.to_nat (PLAINTEXT_MAX - 1)) (format_msg 1 532)
                 ++ [0]))
        25 (uninit stub_junk (AES_IV_BYTES + PLAINTEXT_MAX))
        (AES_IV_BYTES + PLAINTEXT_MAX)
        (set_log_seq 1 (stub_world stub_norng stub_platform None))
      = Done (false, record) w2).
  { eexists. eexists. vm_compute. reflexivity. }
  split; [right; exact Hfail|].
  destruct (append_encoding_failure_keeps_file stub_dev stub_exec stub_junk
              stub_polls (stub_world stub_norng stub_platform None)
              (or_intror Hfail))
    as (w' & Hrun & Hfile & _).
  exists w'. split; [exact Hrun | exact Hfile].
Defined.

(** C7, the claim as stated fails: once the waiter has returned, the
    shared status is the success code the callback stored; it has not been
    reset to an idle value, and a second wait with no request in between
    finds it and returns true again. *)
Lemma optiga_wait_status_not_reset :
  exists w',
    optiga_wait stub_polls stub_waiting = Done true w'
    /\ s_optiga_status w' = OPTIGA_LIB_SUCCESS
    /\ op_state (s_optiga_status w') = Success
    /\ op_state (s_optiga_status w') <> Idle
    /\ optiga_wait stub_polls w' = Done true w'.
Proof.
  eexists. split; [vm_compute; reflexivity|].
  split; [reflexivity|]. split; [reflexivity|].
  split; [discriminate | reflexivity].
Qed.

(** C7 as amended, on a request that completes after one more poll, and
    on the state that wait returns in, where the status is settled. *)
Lemma optiga_wait_keeps_completion_status_witness :
  exists w',
    optiga_wait stub_polls stub_waiting = Done true w'
    /\ s_optiga_status w' = OPTIGA_LIB_SUCCESS
    /\ w' = optiga_callback OPTIGA_LIB_SUCCESS (set_se_pending None stub_waiting)
    /\ optiga_wait stub_polls w' = Done true w'.
Proof.
  destruct (optiga_wait_keeps_completion_status stub_dev stub_exec stub_polls
              stub_waiting) as (Heq & Hret & _).
  eexists. split; [rewrite Heq; vm_compute; reflexivity|].
  split; [reflexivity|]. split; [reflexivity|].
  destruct (optiga_wait_keeps_completion_status stub_dev stub_exec stub_polls
              (optiga_callback OPTIGA_LIB_SUCCESS
                 (set_se_pending None stub_waiting))) as (_ & Hret' & _).
  destruct (Hret' true
              (optiga_callback OPTIGA_LIB_SUCCESS
                 (set_se_pending None stub_waiting)))
    as (_ & _ & _ & _ & _ & Hagain).
  - vm_compute. reflexivity.
  - exact Hagain.
Defined.

(** C8 at 532 ms of uptime: 25 bytes are written and copied. *)
Lemma append_message_fits_witness :
  INT64_MIN <= uptime_us (plat (stub_world stub_ready stub_platform None))
            <= INT64_MAX
  /\ (exists msg w2,
        snprintf (uninit stub_junk PLAINTEXT_MAX) PLAINTEXT_MAX
                 (format_msg 1 532)
                 (set_log_seq 1 (stub_world stub_ready stub_platform None))
        = Done (25, msg) w2
        /\ 25 <= PLAINTEXT_MAX - 1
        /\ firstn 25 msg = format_msg 1 532)
  /\ append_encrypted_record stub_exec stub_junk stub_polls
       (stub_world stub_ready stub_platform None) <> Undefined.
Proof.
  assert (Hnow : INT64_MIN
                 <= uptime_us (plat (stub_world stub_ready stub_platform None))
                 <= INT64_MAX)
    by (vm_compute; split; discriminate).
  destruct (append_message_fits stub_dev stub_exec stub_junk stub_polls
              (stub_world stub_ready stub_platform None) Hnow)
    as [Hfits Hdef].
  split; [exact Hnow|]. split; [|exact Hdef].
  eexists. eexists. split; [reflexivity|].
  destruct (Hfits 25 _ _ eq_refl ltac:(discriminate)) as (_ & H63 & Htext & _).
  split; [exact H63 | exact Htext].
Defined.

(** C9 on a storage where the log file cannot be opened: the counter
    moves from 0 to 1 and nothing is stored. *)
Lemma append_increments_seq_witness :
  responsive stub_exec stub_polls
  /\ INT64_MIN <= uptime_us (plat (stub_world stub_ready closed_platform None))
               <= INT64_MAX
  /\ exists w',
       append_encrypted_record stub_exec stub_junk stub_polls
         (stub_world stub_ready closed_platform None) = Done tt w'
       /\ s_log_seq w' = 1
       /\ log_file w' = None.
Proof.
  assert (Hnow : INT64_MIN
                 <= uptime_us (plat (stub_world stub_ready closed_platform None))
                 <= INT64_MAX)
    by (vm_compute; split; discriminate).
  split; [exact stub_responsive|]. split; [exact Hnow|].
  destruct (append_increments_seq stub_dev stub_exec stub_junk stub_polls
              (stub_world stub_ready closed_platform None)
              stub_responsive Hnow)
    as (w' & Hrun & Hseq & _ & Hfile).
  exists w'. split; [exact Hrun|]. split; [exact Hseq|].
  apply Hfile. right. reflexivity.
Defined.

(** A gap in the stored sequence numbers: the first append fails to open
    the file, the second succeeds; the only record stored encrypts the
    message of sequence number 2. *)
Lemma append_sequence_gap :
  exists w1 w2 ct,
    append_encrypted_record stub_exec stub_junk stub_polls
      (stub_world stub_ready closed_platform None) = Done tt w1
    /\ s_log_seq w1 = 1
    /\ log_file w1 = None
    /\ append_encrypted_record stub_exec stub_junk stub_polls
         (set_storage stub_platform (log_file w1) w1) = Done tt w2
    /\ s_log_seq w2 = 2
    /\ log_file w2 = Some (map Z.of_nat (seq 0 16) ++ ct)
    /\ map (fun b => Z.lxor b 0xFF) ct
       = zero_padded (format_msg 2 532) 25.
Proof.
  eexists. eexists. eexists.
  split; [vm_compute; reflexivity|].
  split; [reflexivity|]. split; [reflexivity|].
  split; [vm_compute; reflexivity|].
  split; [reflexivity|]. split; [vm_compute; reflexivity|].
  vm_compute. reflexivity.
Qed.

(** C10 with a 79-byte output buffer. *)
Lemma encrypt_record_short_output_buffer_witness :
  79 < AES_IV_BYTES + PLAINTEXT_MAX
  /\ encrypt_record stub_exec stub_junk stub_polls (format_msg 1 532) 25
                    (repeat 0 79%nat) 79
                    (stub_world stub_ready stub_platform None)
     = Done (false, repeat 0 79%nat)
            (stub_world stub_ready stub_platform None).
Proof.
  split; [reflexivity|].
  exact (proj1 (encrypt_record_short_output_buffer stub_dev stub_exec
                  stub_junk stub_polls (format_msg 1 532) 25
                  (repeat 0 79%nat) 79
                  (stub_world stub_ready stub_platform None) eq_refl)).
Defined.

(** * The further properties on stub secure elements *)

Lemma good_always_ok : always_ok good_exec stub_polls.
Proof.
  intros d req. destruct req; repeat split.
  cbn [good_exec fst resp_out].
  rewrite length_firstn, length_app, repeat_length. lia.
Qed.

Lemma stub_clock_in_range p :
  uptime_us p = 532999 -> INT64_MIN <= uptime_us p <= INT64_MAX.
Proof. intros ->. vm_compute. split; discriminate. Qed.

(** X2 on the file of 100 bytes. *)
Lemma print_log_file_hex_layout_witness :
  fopen_ok (plat (stub_world stub_ready stub_platform (Some torn_file))) = true
  /\ log_file (stub_world stub_ready stub_platform (Some torn_file))
     = Some torn_file
  /\ exists lines,
       print_log_file_hex (stub_world stub_ready stub_platform (Some torn_file))
       = Done tt
           (push_logs (LogLine ESP_LOG_INFO "raw file content (hex):" :: lines)
                      (stub_world stub_ready stub_platform (Some torn_file)))
       /\ length lines = 4%nat
       /\ nth_error lines 3 = Some (LogHex ESP_LOG_INFO [96; 97; 98; 99]).
Proof.
  split; [reflexivity|]. split; [reflexivity|].
  destruct (print_log_file_hex_layout stub_dev
              (stub_world stub_ready stub_platform (Some torn_file))
              torn_file eq_refl eq_refl)
    as (lines & Hrun & Hlen & Hnth).
  exists lines. split; [exact Hrun|]. split; [exact Hlen|].
  apply (Hnth 3%nat). vm_compute. lia.
Defined.

(** X4 for the key a on the provisioned stub, and for the key c on a
    storage that opens the file and on one that does not. *)
Lemma command_step_append_only_witness :
  responsive stub_exec stub_polls
  /\ INT64_MIN <= uptime_us (plat (stub_world stub_ready stub_platform
                                              (Some torn_file)))
               <= INT64_MAX
  /\ (exists w' suffix,
        command_step stub_exec stub_junk stub_polls (chr "a"%char)
          (stub_world stub_ready stub_platform (Some torn_file)) = Done tt w'
        /\ content w' = torn_file ++ suffix
        /\ (length suffix <= 80)%nat)
  /\ (exists w',
        command_step stub_exec stub_junk stub_polls (chr "c"%char)
          (stub_world stub_ready stub_platform (Some torn_file)) = Done tt w'
        /\ log_file w' = Some [])
  /\ (exists w',
        command_step stub_exec stub_junk stub_polls (chr "c"%char)
          (stub_world stub_ready closed_platform (Some torn_file)) = Done tt w'
        /\ log_file w' = Some torn_file).
Proof.
  split; [exact stub_responsive|].
  split; [apply stub_clock_in_range; reflexivity|].
  split; [|split].
  - destruct (command_step_append_only stub_dev stub_exec stub_junk stub_polls
                (chr "a"%char)
                (stub_world stub_ready stub_platform (Some torn_file))
                stub_responsive (stub_clock_in_range stub_platform eq_refl))
      as (w' & Hrun & suffix & Hc & Hl).
    exists w', suffix. split; [exact Hrun|]. split; [exact Hc | exact Hl].
  - destruct (command_step_append_only stub_dev stub_exec stub_junk stub_polls
                (chr "c"%char)
                (stub_world stub_ready stub_platform (Some torn_file))
                stub_responsive (stub_clock_in_range stub_platform eq_refl))
      as (w' & Hrun & Hf & _).
    exists w'. split; [exact Hrun | exact Hf].
  - destruct (command_step_append_only stub_dev stub_exec stub_junk stub_polls
                (chr "c"%char)
                (stub_world stub_ready closed_platform (Some torn_file))
                stub_responsive (stub_clock_in_range closed_platform eq_refl))
      as (w' & Hrun & Hf & _).
    exists w'. split; [exact Hrun | exact Hf].
Defined.

(** X5 for the key x. *)
Lemma command_step_other_keys_witness :
  is_append_key (chr "x"%char) = false
  /\ exists lines w',
       command_step stub_exec stub_junk stub_polls (chr "x"%char)
         (stub_world stub_ready stub_platform (Some torn_file)) = Done tt w'
       /\ esp_log w' = lines
       /\ se_trace w' = []
       /\ log_file w' = Some torn_file.
Proof.
  split; [reflexivity|].
  destruct (command_step_other_keys stub_dev stub_exec stub_junk stub_polls
              (chr "x"%char)
              (stub_world stub_ready stub_platform (Some torn_file)) eq_refl)
    as (lines & w' & Hrun & Hlog & _ & Htr & _ & _ & Hrest).
  exists lines, w'. split; [exact Hrun|]. split; [exact Hlog|].
  split; [exact Htr|]. apply (Hrest eq_refl).
Defined.

(** X6 for a feed of an append, an empty read, an unknown key, a dump and
    another append. *)
Lemma command_loop_safe_witness :
  responsive stub_exec stub_polls
  /\ INT64_MIN <= uptime_us (plat (stub_world stub_ready stub_platform None))
               <= INT64_MAX
  /\ exists w',
       command_loop stub_exec stub_junk stub_polls
         [(1, chr "a"%char); (0, 0); (1, chr "x"%char); (1, chr "p"%char);
          (1, chr "1"%char)]
         (stub_world stub_ready stub_platform None) = Done tt w'
       /\ wrap32 (s_log_seq w') = 2.
Proof.
  split; [exact stub_responsive|].
  split; [apply stub_clock_in_range; reflexivity|].
  destruct (command_loop_safe stub_dev stub_exec stub_junk stub_polls
              [(1, chr "a"%char); (0, 0); (1, chr "x"%char);
               (1, chr "p"%char); (1, chr "1"%char)]
              (stub_world stub_ready stub_platform None)
              stub_responsive (stub_clock_in_range stub_platform eq_refl))
    as (w' & Hrun & _ & _ & Hseq).
  exists w'. split; [exact Hrun | exact Hseq].
Defined.

(** X7 on the element on which everything succeeds. *)
Lemma append_adds_one_record_witness :
  always_ok good_exec stub_polls
  /\ INT64_MIN <= uptime_us (plat (good_world stub_platform None)) <= INT64_MAX
  /\ snprintf_ok (plat (good_world stub_platform None)) = true
  /\ fopen_ok (plat (good_world stub_platform None)) = true
  /\ (80 <= fs_free (plat (good_world stub_platform None)))%nat
  /\ exists w' iv ct,
       append_encrypted_record good_exec stub_junk stub_polls
         (good_world stub_platform None) = Done tt w'
       /\ log_file w' = Some (iv ++ ct)
       /\ length (iv ++ ct) = 80%nat.
Proof.
  split; [exact good_always_ok|].
  split; [apply stub_clock_in_range; reflexivity|].
  split; [reflexivity|]. split; [reflexivity|].
  split; [simpl; lia|].
  destruct (append_adds_one_record unit good_exec stub_junk stub_polls
              (good_world stub_platform None) good_always_ok
              (stub_clock_in_range stub_platform eq_refl) eq_refl eq_refl)
    as (w' & iv & ct & a1 & a2 & Hrun & Hfile & Hlen & _).
  - simpl; lia.
  - exists w', iv, ct. split; [exact Hrun|]. split; [exact Hfile | exact Hlen].
Defined.

(** X8 for three appends. *)
Lemma command_loop_appends_grow_witness :
  always_ok good_exec stub_polls
  /\ INT64_MIN <= uptime_us (plat (good_world stub_platform None)) <= INT64_MAX
  /\ snprintf_ok (plat (good_world stub_platform None)) = true
  /\ fopen_ok (plat (good_world stub_platform None)) = true
  /\ (80 * 3 <= fs_free (plat (good_world stub_platform None)))%nat
  /\ exists w' added,
       command_loop good_exec stub_junk stub_polls
         (repeat (1, chr "a"%char) 3) (good_world stub_platform None)
       = Done tt w'
       /\ content w' = added
       /\ length added = 240%nat
       /\ wrap32 (s_log_seq w') = 3.
Proof.
  split; [exact good_always_ok|].
  split; [apply stub_clock_in_range; reflexivity|].
  split; [reflexivity|]. split; [reflexivity|].
  split; [simpl; lia|].
  destruct (command_loop_appends_grow unit good_exec stub_junk stub_polls 3
              (good_world stub_platform None) good_always_ok
              (stub_clock_in_range stub_platform eq_refl) eq_refl eq_refl)
    as (w' & added & Hrun & Hc & Hl & _ & Hseq).
  - simpl; lia.
  - exists w', added. split; [exact Hrun|]. split; [exact Hc|].
    split; [exact Hl | exact Hseq].
Defined.

(** X9 with the macro set to 1, on the stub whose slot is already
    provisioned: the key is overwritten all the same. *)
Lemma provisioning_destructive_witness :
  1 <> 0
  /\ responsive stub_exec stub_polls
  /\ exists w' ops,
       optiga_generate_key_if_enabled stub_exec stub_polls 1
         (stub_world stub_ready stub_platform None) = Done true w'
       /\ se_trace w' = ops
       /\ count_write_metadata ops = 1%nat
       /\ count_generate_key ops = 1%nat
       /\ existsb is_read_metadata ops = false.
Proof.
  split; [discriminate|]. split; [exact stub_responsive|].
  destruct (provisioning_destructive stub_dev stub_exec stub_polls 1
              (stub_world stub_ready stub_platform None)
              ltac:(discriminate) stub_responsive)
    as (ok & w' & ops & l & Hrun & Hok & Htr & Hops & Hrd & _).
  exists w', ops. rewrite Hok in Hrun.
  split; [exact Hrun|]. split; [exact Htr|].
  rewrite Hops. repeat split.
Defined.

(** X10 on the stub whose slot has no metadata. *)
Lemma provisioning_result_witness :
  responsive stub_exec stub_polls
  /\ exists w',
       optiga_generate_key_if_enabled stub_exec stub_polls 0
         (stub_world stub_blank stub_platform None) = Done true w'.
Proof.
  split; [exact stub_responsive|].
  exact (provisioning_result stub_dev stub_exec stub_polls
           (stub_world stub_blank stub_platform None) stub_responsive).
Defined.

(** X11 on the stub that refuses the metadata write, with a log file. *)
Lemma provisioning_leaves_store_witness :
  responsive stub_exec stub_polls
  /\ exists ok w',
       optiga_generate_key_if_enabled stub_exec stub_polls 0
         (stub_world stub_locked stub_platform (Some torn_file)) = Done ok w'
       /\ log_file w' = Some torn_file
       /\ s_log_seq w' = 0.
Proof.
  split; [exact stub_responsive|].
  destruct (provisioning_leaves_store stub_dev stub_exec stub_polls 0
              (stub_world stub_locked stub_platform (Some torn_file))
              stub_responsive)
    as (ok & w' & Hrun & Hfile & _ & Hseq & _).
  exists ok, w'. split; [exact Hrun|]. split; [exact Hfile | exact Hseq].
Defined.

(** X12 on an element whose slot holds a single byte of metadata. *)
Lemma optiga_key_ready_weak_check_witness :
  in_time stub_polls
    (se_answer stub_exec
       (stub_world (mkStub [0xFF] true true) stub_platform None)
       (optiga_util_read_metadata OID_E200 64)) = true
  /\ exists w',
       optiga_key_ready stub_exec stub_polls
         (stub_world (mkStub [0xFF] true true) stub_platform None)
       = Done true w'.
Proof.
  split; [reflexivity|].
  destruct (optiga_key_ready_weak_check stub_dev stub_exec stub_polls
              (stub_world (mkStub [0xFF] true true) stub_platform None)
              eq_refl)
    as (w' & Hrun & _).
  exists w'. exact Hrun.
Defined.

(** X13 on the stub whose random generator fails. *)
Lemma encrypt_record_no_iv_no_encrypt_witness :
  AES_IV_BYTES + PLAINTEXT_MAX <= 80
  /\ in_time stub_polls
       (se_answer stub_exec (stub_world stub_norng stub_platform None)
                  (optiga_crypt_random AES_IV_BYTES)) = true
  /\ completes_ok
       (se_answer stub_exec (stub_world stub_norng stub_platform None)
                  (optiga_crypt_random AES_IV_BYTES)) = false
  /\ exists w',
       encrypt_record stub_exec stub_junk stub_polls (format_msg 1 532) 25
                      (repeat 0 80%nat) 80
                      (stub_world stub_norng stub_platform None)
       = Done (false, repeat 0 80%nat) w'
       /\ length (se_trace w') = 1%nat.
Proof.
  split; [vm_compute; discriminate|]. split; [reflexivity|].
  split; [reflexivity|].
  destruct (encrypt_record_no_iv_no_encrypt stub_dev stub_exec stub_junk
              stub_polls (format_msg 1 532) 25 (repeat 0 80%nat) 80
              (stub_world stub_norng stub_platform None))
    as (w' & Hrun & Htr & _).
  - vm_compute; discriminate.
  - reflexivity.
  - reflexivity.
  - exists w'. split; [exact Hrun|]. rewrite Htr. reflexivity.
Defined.

(** X14 on the element that never completes, followed for 1000 polls. *)
Lemma append_hangs_on_silent_element_witness :
  snprintf_ok (plat (good_world stub_platform None)) = true
  /\ is_success
       (resp_ret (se_answer wedged_exec (good_world stub_platform None)
                            (optiga_crypt_random AES_IV_BYTES))) = true
  /\ resp_done (se_answer wedged_exec (good_world stub_platform None)
                          (optiga_crypt_random AES_IV_BYTES)) = None
  /\ append_encrypted_record wedged_exec stub_junk 1000
       (good_world stub_platform None) = Timeout.
Proof.
  split; [reflexivity|]. split; [reflexivity|]. split; [reflexivity|].
  exact (append_hangs_on_silent_element unit wedged_exec stub_junk 1000
           (good_world stub_platform None) eq_refl eq_refl eq_refl).
Defined.

(** X15 when the storage cannot be mounted. *)
Lemma app_main_platform_failure_witness :
  is_esp_ok (mount_result boot_no_storage)
  && crypt_created boot_no_storage && util_created boot_no_storage = false
  /\ exists w',
       app_main good_exec stub_junk stub_polls 0 0 boot_no_storage
         [(1, chr "a"%char)] (good_world stub_platform None) = Done tt w'
       /\ se_trace w' = []
       /\ log_file w' = None.
Proof.
  split; [reflexivity|].
  destruct (app_main_platform_failure unit good_exec stub_junk stub_polls
              0 0 boot_no_storage [(1, chr "a"%char)]
              (good_world stub_platform None) eq_refl)
    as (w' & l & msg & Hrun & _ & Htr & _ & Hfile & _).
  exists w'. split; [exact Hrun|]. split; [exact Htr | exact Hfile].
Defined.

(** X16 on the stub that refuses the metadata write. *)
Lemma app_main_provisioning_failure_witness :
  mount_result boot_fine = ESP_OK
  /\ crypt_created boot_fine = true
  /\ util_created boot_fine = true
  /\ exists wp,
       optiga_generate_key_if_enabled stub_exec stub_polls 0
         (push_log (LogLine ESP_LOG_INFO "Encrypted data logging demo (ESP-IDF)")
                   (stub_world stub_locked stub_platform None))
       = Done false wp
       /\ app_main stub_exec stub_junk stub_polls 0 0 boot_fine
            [(1, chr "a"%char)] (stub_world stub_locked stub_platform None)
          = Done tt (push_log (LogLine ESP_LOG_ERROR "optiga key init failed") wp)
       /\ log_file wp = None.
Proof.
  split; [reflexivity|]. split; [reflexivity|]. split; [reflexivity|].
  eexists. split; [vm_compute; reflexivity|].
  split; [|reflexivity].
  refine (proj1 (app_main_provisioning_failure stub_dev stub_exec stub_junk
                   stub_polls 0 0 boot_fine [(1, chr "a"%char)]
                   (stub_world stub_locked stub_platform None) _
                   eq_refl eq_refl eq_refl _)).
  vm_compute. reflexivity.
Defined.

(** X17 on the element on which everything succeeds, with two appends
    fed: the counter ends at 2. The same feed with no storage to mount
    leaves it at 0. *)
Lemma app_main_safe_witness :
  responsive good_exec stub_polls
  /\ INT64_MIN <= uptime_us (plat (good_world stub_platform None)) <= INT64_MAX
  /\ (exists w',
        app_main good_exec stub_junk stub_polls 0 0 boot_fine
          [(1, chr "a"%char); (1, chr "A"%char)] (good_world stub_platform None)
        = Done tt w'
        /\ wrap32 (s_log_seq w') = 2)
  /\ (exists w',
        app_main good_exec stub_junk stub_polls 0 0 boot_no_storage
          [(1, chr "a"%char); (1, chr "A"%char)] (good_world stub_platform None)
        = Done tt w'
        /\ s_log_seq w' = 0).
Proof.
  split; [intros d req; apply good_always_ok|].
  split; [apply stub_clock_in_range; reflexivity|].
  split.
  - destruct (app_main_safe unit good_exec stub_junk stub_polls 0 0 boot_fine
                [(1, chr "a"%char); (1, chr "A"%char)]
                (good_world stub_platform None))
      as (ok & wp & w' & Hprov & Hrun & Hcase).
    + intros d req. apply good_always_ok.
    + apply stub_clock_in_range. reflexivity.
    + assert (Hok : ok = true).
      { vm_compute in Hprov. congruence. }
      rewrite Hok in Hcase. cbn [boot_fine mount_result crypt_created
                                 util_created is_esp_ok andb] in Hcase.
      destruct Hcase as (_ & Hseq & _).
      exists w'. split; [exact Hrun | exact Hseq].
  - destruct (app_main_safe unit good_exec stub_junk stub_polls 0 0
                boot_no_storage
                [(1, chr "a"%char); (1, chr "A"%char)]
                (good_world stub_platform None))
      as (ok & wp & w' & Hprov & Hrun & Hcase).
    + intros d req. apply good_always_ok.
    + apply stub_clock_in_range. reflexivity.
    + cbn [boot_no_storage mount_result is_esp_ok andb] in Hcase.
      destruct Hcase as (Hseq & _).
      exists w'. split; [exact Hrun | exact Hseq].
Defined.

(** X18 for two contents of the stack. *)
Lemma append_ignores_stack_content_witness :
  INT64_MIN <= uptime_us (plat (good_world stub_platform None)) <= INT64_MAX
  /\ (forall d,
        length (resp_out (fst (good_exec d (optiga_crypt_random AES_IV_BYTES))))
        = 16%nat)
  /\ append_encrypted_record good_exec stub_junk stub_polls
       (good_world stub_platform None)
     = append_encrypted_record good_exec other_junk stub_polls
         (good_world stub_platform None).
Proof.
  split; [apply stub_clock_in_range; reflexivity|].
  split; [intros d; reflexivity|].
  apply append_ignores_stack_content.
  - apply stub_clock_in_range. reflexivity.
  - intros d. reflexivity.
Defined.

(** X19 on the element on which everything succeeds. *)
Lemma two_appends_two_ivs_witness :
  always_ok good_exec stub_polls
  /\ INT64_MIN <= uptime_us (plat (good_world stub_platform None)) <= INT64_MAX
  /\ snprintf_ok (plat (good_world stub_platform None)) = true
  /\ fopen_ok (plat (good_world stub_platform None)) = true
  /\ (160 <= fs_free (plat (good_world stub_platform None)))%nat
  /\ exists w1 w2,
       append_encrypted_record good_exec stub_junk stub_polls
         (good_world stub_platform None) = Done tt w1
       /\ append_encrypted_record good_exec stub_junk stub_polls w1
          = Done tt w2
       /\ length (se_trace w2) = 4%nat.
Proof.
  split; [exact good_always_ok|].
  split; [apply stub_clock_in_range; reflexivity|].
  split; [reflexivity|]. split; [reflexivity|].
  split; [simpl; lia|].
  destruct (two_appends_two_ivs unit good_exec stub_junk stub_polls
              (good_world stub_platform None) good_always_ok
              (stub_clock_in_range stub_platform eq_refl) eq_refl eq_refl)
    as (w1 & w2 & a1 & c1 & a2 & c2 & p1 & p2 & Hrun1 & Hrun2 & Htr & _).
  - simpl; lia.
  - exists w1, w2. split; [exact Hrun1|]. split; [exact Hrun2|].
    rewrite Htr. reflexivity.
Defined.
